(** * picdexer: metadata indexer

    A shallow embedding of the picture-metadata indexer:

    - the legacy sequential indexer (package [indexer]): the field decoders
      [getFloat], [getString], [getUint64FromFloat64], the record converter
      [convert], the GPS converter [convertGPSCoordinates] with its helpers
      [degMinSecToDecimal] and [skipLastChar], and the directory operation
      [Index];
    - the concurrent indexer (package [metadata]): [extractionThreadCount],
      [toExtractChannelSize], [convert], [Push] and the pipeline started by
      [Dump] (the goroutines [dump] and [startConverters] with its workers).

    Go values are modelled as the code has them: strings are byte strings,
    [map[string]interface{}] is a finite map from strings to dynamically
    typed values, a function returning [(T, error)] returns a [result], and
    a run-time panic is an outcome of its own.  What the Go standard library
    and third-party packages provide (float arithmetic and parsing, time
    parsing, formatting of floats, JSON encoding, HTTP) is an interface the
    development is parametric in; reference instances are given so that the
    definitions can be evaluated on concrete inputs. *)

From Stdlib Require Import ZArith List String Ascii Bool Lia SpecFloat DecimalString.
From stdpp Require Import base option list strings gmap.
Import ListNotations.
Open Scope string_scope.
Open Scope Z_scope.
Set Warnings "-register-all".

(** ** Outcomes of Go calls *)

(** A call returning [(T, error)] either returns a value with a nil error
    ([Ok]), returns a non-nil error ([Err], carrying the message; the value
    returned alongside is never read by a caller), or panics. *)
Inductive result (A : Type) : Type :=
| Ok (a : A)
| Err (e : string)
| Panic (p : string).
Arguments Ok {A} a.
Arguments Err {A} e.
Arguments Panic {A} p.

Definition result_bind {A B : Type} (f : A -> result B) (r : result A) : result B :=
  match r with
  | Ok a => f a
  | Err e => Err e
  | Panic p => Panic p
  end.

#[global] Instance result_mbind : MBind result := @result_bind.
#[global] Instance result_mret : MRet result := @Ok.

Definition is_Ok {A} (r : result A) : bool :=
  match r with Ok _ => true | _ => false end.
Definition is_Err {A} (r : result A) : bool :=
  match r with Err _ => true | _ => false end.
Definition is_Panic {A} (r : result A) : bool :=
  match r with Panic _ => true | _ => false end.

(** ** The Go library functions on strings and integers used by the code *)

Module Go.

(** [strings.Split(s, sep)] for a separator of one byte, which is what both
    call sites pass ([" "] and [string(os.PathSeparator)]): the result has
    one more element than [s] has separators, and [Split "" c = [""]]. *)
Fixpoint Split (s : string) (sep : ascii) : list string :=
  match s with
  | EmptyString => [EmptyString]
  | String a s' =>
      if Ascii.eqb a sep then EmptyString :: Split s' sep
      else match Split s' sep with
           | h :: t => String a h :: t
           | [] => [String a EmptyString]
           end
  end.

(** The one-byte string holding a double quote. *)
Definition dquote : string := String (ascii_of_nat 34) EmptyString.

(** [strings.HasPrefix(s, prefix)]. *)
Definition HasPrefix (s pre : string) : bool := String.prefix pre s.

(** [strconv.FormatInt(i, 10)], also what [%v] prints for an [int]. *)
Definition FormatInt (i : Z) : string := NilZero.string_of_int (Z.to_int i).

(** Wrap-around of [int64] arithmetic. *)
Definition wrap64 (z : Z) : Z := (z + 2 ^ 63) mod 2 ^ 64 - 2 ^ 63.

(** [s[:n]] for [0 <= n <= len(s)]. *)
Fixpoint take (n : nat) (s : string) : string :=
  match n, s with
  | S n', String a s' => String a (take n' s')
  | _, _ => EmptyString
  end.

(** Number of separators [c] in [s]. *)
Fixpoint count (c : ascii) (s : string) : nat :=
  match s with
  | EmptyString => 0%nat
  | String a s' => ((if Ascii.eqb a c then 1 else 0) + count c s')%nat
  end.

End Go.

(** ** Floating point and time: the interface of the Go runtime *)

(** [float64] and [float32] with the operations the indexer uses.
    [ParseFloat32 s] is [strconv.ParseFloat(s, 32)]: the [float64] holding the
    nearest [float32], or [None] when the call returns a non-nil error.
    [f64_of_Z] converts an untyped integer constant, [f64_to_f32] is the
    conversion [float32(x)], [f64_to_u64] the conversion [uint64(x)], and
    [fmt_f64], [fmt_f32] are what [fmt.Sprintf("%v", x)] prints. *)
Class FloatLib : Type := {
  float64 : Type;
  float32 : Type;
  ParseFloat32 : string -> option float64;
  f64_of_Z : Z -> float64;
  f64_add : float64 -> float64 -> float64;
  f64_mul : float64 -> float64 -> float64;
  f64_div : float64 -> float64 -> float64;
  f64_to_f32 : float64 -> float32;
  f64_to_u64 : float64 -> Z;
  fmt_f64 : float64 -> string;
  fmt_f32 : float32 -> string
}.

(** [time.Parse(layout, value)] and the method [Unix] of [time.Time]. A
    failed parse carries the library's error message. *)
Class TimeLib : Type := {
  time_Time : Type;
  time_Parse : string -> string -> time_Time + string;
  time_Unix : time_Time -> Z
}.

(** [os.FileInfo], as far as it is read. *)
Record FileInfo : Type := {
  Name : string;
  Size : Z;
  IsDir : bool
}.

(** ** Legacy indexer: GPS coordinates *)

Module Legacy.

Section GPS.
Context `{FL : FloatLib}.

(** [degMinSecToDecimal]: three [ParseFloat] calls in order, then the
    hemisphere switch, then [(fDeg + fMin/60 + fSec/3600) * mult] in
    [float64], converted to [float32]. *)
Definition degMinSecToDecimal (deg min sec let_ : string) : result float32 :=
  match ParseFloat32 deg with
  | None => Err ("error while parsing deg " ++ deg ++ " as float")
  | Some fDeg =>
    match ParseFloat32 min with
    | None => Err ("error while parsing min " ++ min ++ " as float")
    | Some fMin =>
      match ParseFloat32 sec with
      | None => Err ("error while parsing sec " ++ sec ++ " as float")
      | Some fSec =>
        let value (mult : float64) :=
          f64_to_f32
            (f64_mul
               (f64_add (f64_add fDeg (f64_div fMin (f64_of_Z 60)))
                        (f64_div fSec (f64_of_Z 3600)))
               mult) in
        if String.eqb let_ "S" || String.eqb let_ "W" then
          Ok (value (f64_of_Z (-1)))
        else if String.eqb let_ "N" || String.eqb let_ "E" then
          Ok (value (f64_of_Z 1))
        else Err ("Unsupported letter (" ++ let_ ++ ")")
      end
    end
  end.

(** [skipLastChar]: [src[:len(src)-1]], which panics on the empty string
    (slice bound [-1]). *)
Definition skipLastChar (src : string) : result string :=
  match String.length src with
  | O => Panic "runtime error: slice bounds out of range [:-1]"
  | S n => Ok (Go.take n src)
  end.

(** [convertGPSCoordinates]. The arguments of each [degMinSecToDecimal]
    call are evaluated left to right before the call, so a panic in
    [skipLastChar] happens before any parsing of that group; the longitude
    group is only looked at once the latitude group has converted. *)
Definition convertGPSCoordinates (latLong : string) : result (float32 * float32) :=
  let sub := Go.Split latLong " "%char in
  if negb (Nat.eqb (length sub) 10) then
    Err ("Parsing inconsistency (" ++ latLong ++ "): "
         ++ Go.FormatInt (Z.of_nat (length sub)) ++ " elements parsed")
  else
    let tok (i : nat) := nth i sub EmptyString in
    m ← skipLastChar (tok 2%nat);
    s ← skipLastChar (tok 3%nat);
    l ← skipLastChar (tok 4%nat);
    match degMinSecToDecimal (tok 0%nat) m s l with
    | Panic p => Panic p
    | Err e => Err ("error while converting latitude (" ++ latLong ++ "): " ++ e)
    | Ok lat =>
      m' ← skipLastChar (tok 7%nat);
      s' ← skipLastChar (tok 8%nat);
      match degMinSecToDecimal (tok 5%nat) m' s' (tok 9%nat) with
      | Panic p => Panic p
      | Err e => Err ("error while converting longitude (" ++ latLong ++ "): " ++ e)
      | Ok long => Ok (lat, long)
      end
    end.

End GPS.

(** ** Legacy indexer: raw metadata, field decoders, record converter *)

(** A value of type [interface{}] as the metadata extractor produces it
    from JSON; [F] is the type [float64]. *)
Inductive value (F : Type) : Type :=
| VNil
| VBool (b : bool)
| VFloat (f : F)
| VString (s : string)
| VSlice (l : list (value F))
| VMap (m : list (string * value F)).
Arguments VNil {F}.
Arguments VBool {F} b.
Arguments VFloat {F} f.
Arguments VString {F} s.
Arguments VSlice {F} l.
Arguments VMap {F} m.

(** [exif.FileMetadata]: the file name and the [Fields] map. *)
Record FileMetadata (F : Type) : Type := {
  File : string;
  Fields : gmap string (value F)
}.
Arguments File {F} f.
Arguments Fields {F} f.

(** [model.Model], with the fields the converter assigns; a pointer field
    is an [option], and [Keywords] is [None] for the nil slice. *)
Record Model (F : Type) : Type := {
  Aperture : option F;
  ShutterSpeed : option string;
  CameraModel : option string;
  LensModel : option string;
  MimeType : option string;
  Height : option Z;
  Width : option Z;
  FileSize : Z;
  FileName : string;
  Folder : string;
  Keywords : option (list string);
  Date : option string;
  GPS : option string
}.
Arguments Aperture {F} m.
Arguments ShutterSpeed {F} m.
Arguments CameraModel {F} m.
Arguments LensModel {F} m.
Arguments MimeType {F} m.
Arguments Height {F} m.
Arguments Width {F} m.
Arguments FileSize {F} m.
Arguments FileName {F} m.
Arguments Folder {F} m.
Arguments Keywords {F} m.
Arguments Date {F} m.
Arguments GPS {F} m.

Section Decoders.
Context `{FL : FloatLib} `{TL : TimeLib}.

Local Abbreviation value := (value float64).
Local Abbreviation FileMetadata := (FileMetadata float64).
Local Abbreviation Model := (Model float64).

(** The dynamic type name, as a failed type assertion prints it. *)
Definition typeName (v : value) : string :=
  match v with
  | VNil => "nil"
  | VBool _ => "bool"
  | VFloat _ => "float64"
  | VString _ => "string"
  | VSlice _ => "[]interface {}"
  | VMap _ => "map[string]interface {}"
  end.

(** The panic of an unchecked type assertion [v.(T)] on a value of another
    type. *)
Definition assertPanic {A} (v : value) (T : string) : result A :=
  Panic ("interface conversion: interface {} is " ++ typeName v ++ ", not " ++ T).

(** [v.(float64)] and [v.(string)], unchecked. *)
Definition assertFloat64 (v : value) : result float64 :=
  match v with VFloat f => Ok f | _ => assertPanic v "float64" end.
Definition assertString (v : value) : result string :=
  match v with VString s => Ok s | _ => assertPanic v "string" end.

Definition APERTURE_KEY := "Aperture".
Definition SHUTTER_KEY := "ShutterSpeed".
Definition KEYWORDS_KEY := "Keywords".
Definition CAMERA_KEY := "Model".
Definition LENS_KEY := "LensModel".
Definition MIMETYPE_KEY := "MIMEType".
Definition HEIGHT_KEY := "ImageHeight".
Definition WIDTH_KEY := "ImageWidth".
Definition CAPTUREDATE_KEY := "CreateDate".
Definition GPS_KEY := "GPSPosition".
Definition SRC_DATE_FORMAT := "2006:01:02 15:04:05".
Definition ES_BULK_LINE_HEADER :=
  "{ " ++ Go.dquote ++ "index" ++ Go.dquote ++ ":{} }".
Definition IMAGE_MIME_TYPE := "image/".

(** [getFloat]: absent key gives nil; a present value goes through the
    unchecked assertion [v.(float64)]. *)
Definition getFloat (m : FileMetadata) (k : string) : result (option float64) :=
  match Fields m !! k with
  | None => Ok None
  | Some v => v2 ← assertFloat64 v; Ok (Some v2)
  end.

(** [getString]: checked assertions; a string is returned as it is, a
    [float64] is printed with [%v], anything else gives nil. *)
Definition getString (m : FileMetadata) (k : string) : option string :=
  match Fields m !! k with
  | Some (VString v2) => Some v2
  | Some (VFloat v3) => Some (fmt_f64 v3)
  | _ => None
  end.

(** [getUint64FromFloat64]: as [getFloat], then [uint64(...)]. *)
Definition getUint64FromFloat64 (m : FileMetadata) (k : string) : result (option Z) :=
  match Fields m !! k with
  | None => Ok None
  | Some v => v2 ← assertFloat64 v; Ok (Some (f64_to_u64 v2))
  end.

(** The loop [for i, v := range interfaceSlices { kws[i] = v.(string) }]. *)
Fixpoint keywordsOfSlice (l : list value) : result (list string) :=
  match l with
  | [] => Ok []
  | v :: l' => s ← assertString v; kws ← keywordsOfSlice l'; Ok (s :: kws)
  end.

(** The keyword decode of [convert]: a slice is copied element by element,
    a single string becomes a one-element list, any other value leaves the
    nil slice. *)
Definition decodeKeywords (m : FileMetadata) : result (option (list string)) :=
  match Fields m !! KEYWORDS_KEY with
  | None => Ok None
  | Some (VSlice interfaceSlices) => kws ← keywordsOfSlice interfaceSlices; Ok (Some kws)
  | Some (VString str) => Ok (Some [str])
  | Some _ => Ok None
  end.

(** The capture-date step of [convert]. *)
Definition decodeDate (m : FileMetadata) : result (option string) :=
  match Fields m !! CAPTUREDATE_KEY with
  | None => Ok None
  | Some rawDate =>
      s ← assertString rawDate;
      match time_Parse SRC_DATE_FORMAT s with
      | inr err => Err ("error while parsing date (" ++ s ++ "): " ++ err)
      | inl d => Ok (Some (Go.FormatInt (Go.wrap64 (time_Unix d * 1000))))
      end
  end.

(** The GPS step of [convert]. *)
Definition decodeGPS (m : FileMetadata) : result (option string) :=
  match Fields m !! GPS_KEY with
  | None => Ok None
  | Some gpsVal =>
      s ← assertString gpsVal;
      match convertGPSCoordinates s with
      | Panic p => Panic p
      | Err err => Err ("error while converting gps coordinates (" ++ s ++ "): " ++ err)
      | Ok (lat, long) => Ok (Some (fmt_f32 lat ++ "," ++ fmt_f32 long))
      end
  end.

(** [pic.Folder]: the last but one component of the path. *)
Definition folderOf (PathSeparator : ascii) (f : string) : string :=
  let components := Go.Split f PathSeparator in
  if Nat.ltb 1 (length components)
  then nth (length components - 2) components EmptyString
  else EmptyString.

Definition noMetadata : FileMetadata := {| File := EmptyString; Fields := ∅ |}.

(** [convert], given what [idxer.exif.ExtractMetadata(f)] returned. The
    steps run in the order of the source, so the first panic or error
    decides. *)
Definition convertMetas (PathSeparator : ascii)
    (metas : list FileMetadata) (f : string) (fInfo : FileInfo) : result Model :=
  if negb (Nat.eqb (length metas) 1) then
    Err ("wrong metadata count (" ++ Go.FormatInt (Z.of_nat (length metas)) ++ ")")
  else
    let meta := nth 0 metas noMetadata in
    aperture ← getFloat meta APERTURE_KEY;
    height ← getUint64FromFloat64 meta HEIGHT_KEY;
    width ← getUint64FromFloat64 meta WIDTH_KEY;
    keywords ← decodeKeywords meta;
    date ← decodeDate meta;
    gps ← decodeGPS meta;
    Ok {| Aperture := aperture;
          ShutterSpeed := getString meta SHUTTER_KEY;
          CameraModel := getString meta CAMERA_KEY;
          LensModel := getString meta LENS_KEY;
          MimeType := getString meta MIMETYPE_KEY;
          Height := height;
          Width := width;
          FileSize := Size fInfo mod 2 ^ 64;
          FileName := Name fInfo;
          Folder := folderOf PathSeparator f;
          Keywords := keywords;
          Date := date;
          GPS := gps |}.

End Decoders.

(** ** Legacy indexer: the directory operation *)

Section Index.
Context `{FL : FloatLib} `{TL : TimeLib}.

Local Abbreviation FileMetadata := (FileMetadata float64).
Local Abbreviation Model := (Model float64).

(** The metadata extractor, the path separator of the platform and the JSON
    encoder of the record: the line written, or the error [Encode] returns,
    in which case nothing is written. *)
Variable ExtractMetadata : string -> list FileMetadata.
Variable PathSeparator : ascii.
Variable json_Encode : Model -> string + string.

Definition convert (f : string) (fInfo : FileInfo) : result Model :=
  convertMetas PathSeparator (ExtractMetadata f) f fInfo.

(** One call of the function [filepath.Walk] hands to its callback: an
    entry with its [FileInfo], or the error met on the way to it. *)
Inductive visit : Type :=
  | Visit (path : string) (info : FileInfo)
  | VisitError (path : string) (err : string).

(** What [Index] has written: lines on standard output, and log entries. *)
Record IndexOutput : Type := {
    stdout : list string;
    logged : list string
  }.

Definition emitLine (l : string) (o : IndexOutput) : IndexOutput :=
  {| stdout := stdout o ++ [l]; logged := logged o |}.
Definition logLine (l : string) (o : IndexOutput) : IndexOutput :=
  {| stdout := stdout o; logged := logged o ++ [l] |}.

(** The callback of [Index] applied to one regular file whose conversion
    returned [r]. *)
Definition indexFile (path : string) (r : result Model) (o : IndexOutput)
  : result unit * IndexOutput :=
  match r with
  | Panic p => (Panic p, o)
  | Err err => (Ok tt, logLine (path ++ ": " ++ err) o)
  | Ok pic =>
      match MimeType pic with
      | Some mt =>
          if Go.HasPrefix mt IMAGE_MIME_TYPE then
            let o1 := emitLine ES_BULK_LINE_HEADER o in
            match json_Encode pic with
            | inl line => (Ok tt, emitLine line o1)
            | inr err => (Ok tt, logLine ("error while encoding json: " ++ err) o1)
            end
          else (Ok tt, o)
      | None => (Ok tt, o)
      end
  end.

(** [filepath.Walk] with the callback of [Index]: the walk stops at the
    first visit for which the callback returns an error, which is the
    error the walk handed in. *)
Fixpoint walkIndex (visits : list visit) (o : IndexOutput)
  : result unit * IndexOutput :=
  match visits with
  | [] => (Ok tt, o)
  | VisitError _ err :: _ => (Err err, o)
  | Visit path info :: rest =>
      if IsDir info then walkIndex rest o
      else
        match indexFile path (convert path info) (logLine path o) with
        | (Ok _, o') => walkIndex rest o'
        | stop => stop
        end
  end.

(** [Index] on a tree whose traversal makes the given visits. *)
Definition Index (visits : list visit) : result unit * IndexOutput :=
  match walkIndex visits {| stdout := []; logged := [] |} with
  | (Err err, o) => (Err ("error while browsing directory: " ++ err), o)
  | r => r
  end.

(** The lines the description promises for one visit: a header line and
    a record line for a regular file whose converted record has a MIME type
    beginning with [image/], nothing for any other visit. When the encoder
    fails the header line stands alone. *)
Definition imageLines (v : visit) : list string :=
  match v with
  | VisitError _ _ => []
  | Visit path info =>
      if IsDir info then []
      else
        match convert path info with
        | Ok pic =>
            match MimeType pic with
            | Some mt =>
                if Go.HasPrefix mt IMAGE_MIME_TYPE
                then ES_BULK_LINE_HEADER
                       :: match json_Encode pic with inl l => [l] | inr _ => [] end
                else []
            | None => []
            end
        | _ => []
        end
  end.

Definition isVisitError (v : visit) : bool :=
  match v with VisitError _ _ => true | Visit _ _ => false end.

End Index.

End Legacy.

(** ** Reference instances of the runtime interfaces

    IEEE 754 binary64 and binary32 through the specification floats of the
    Standard Library, a parser of plain decimal literals, and a parser of the
    capture-date layout. They serve to evaluate the definitions on concrete
    inputs; the theorems below hold for every instance. *)

Module Reference.

Definition digitOf (c : ascii) : option Z :=
  let n := Z.of_nat (nat_of_ascii c) in
  if (48 <=? n) && (n <=? 57) then Some (n - 48) else None.

(** Reads a run of decimal digits: its value continuing [acc], how many
    digits were read, and the rest of the string. *)
Fixpoint readDigits (s : string) (acc : Z) (n : nat) : Z * nat * string :=
  match s with
  | EmptyString => (acc, n, s)
  | String c s' =>
      match digitOf c with
      | Some d => readDigits s' (10 * acc + d) (S n)
      | None => (acc, n, s)
      end
  end.

(** A decimal literal [[+-]digits[.digits]] with at least one digit, as the
    pair of its sign and the fraction [mantissa / 10^scale]. *)
Definition readDecimal (s : string) : option (bool * Z * nat) :=
  let '(neg, body) :=
    match s with
    | String "-"%char r => (true, r)
    | String "+"%char r => (false, r)
    | _ => (false, s)
    end in
  let '(ip, ni, rest) := readDigits body 0 0 in
  match rest with
  | EmptyString => if Nat.eqb ni 0 then None else Some (neg, ip, 0%nat)
  | String "."%char frac =>
      let '(m, nf, rest') := readDigits frac ip 0 in
      match rest' with
      | EmptyString => if Nat.eqb (ni + nf) 0 then None else Some (neg, m, nf)
      | _ => None
      end
  | _ => None
  end.

(** The binary64 in canonical form holding the same number as a finite
    float of a narrower format. *)
Definition widen (x : spec_float) : spec_float :=
  match x with
  | S754_finite sg m e => binary_round 53 1024 sg m e
  | _ => x
  end.

(** The nearest binary32 to a decimal literal, held in a binary64; an
    overflow is the range error of [ParseFloat]. Literals with an exponent,
    hexadecimal literals and the names of infinities and NaN are outside
    this instance. *)
Definition parseFloat32 (s : string) : option spec_float :=
  match readDecimal s with
  | None => None
  | Some (neg, m, scale) =>
      match m with
      | Zpos p =>
          match SFdiv 24 128 (S754_finite neg p 0)
                             (S754_finite false (Z.to_pos (10 ^ Z.of_nat scale)) 0) with
          | S754_finite sg mz ez => Some (widen (S754_finite sg mz ez))
          | S754_zero sg => Some (S754_zero sg)
          | _ => None
          end
      | _ => Some (S754_zero neg)
      end
  end.

Definition toFloat32 (x : spec_float) : spec_float :=
  match x with
  | S754_finite sg m e => binary_round 24 128 sg m e
  | _ => x
  end.

(** Truncation toward zero, reduced modulo [2^64]. *)
Definition toUint64 (x : spec_float) : Z :=
  match x with
  | S754_finite sg m e =>
      let z := if 0 <=? e then Zpos m * 2 ^ e else Zpos m / 2 ^ (- e) in
      (if sg then - z else z) mod 2 ^ 64
  | _ => 0
  end.

(** The binary form [mantissa p exponent] of a float (the verb [%b]), which
    stands in for the shortest decimal form that [%v] prints. *)
Definition formatFloat (x : spec_float) : string :=
  match x with
  | S754_zero sg => if sg then "-0" else "0"
  | S754_infinity sg => if sg then "-Inf" else "+Inf"
  | S754_nan => "NaN"
  | S754_finite sg m e =>
      (if sg then "-" else "") ++ Go.FormatInt (Zpos m) ++ "p" ++ Go.FormatInt e
  end.

#[export] Instance floats : FloatLib := {|
    float64 := spec_float;
    float32 := spec_float;
    ParseFloat32 := parseFloat32;
    f64_of_Z := fun z => binary_normalize 53 1024 z 0 false;
    f64_add := SFadd 53 1024;
    f64_mul := SFmul 53 1024;
    f64_div := SFdiv 53 1024;
    f64_to_f32 := toFloat32;
    f64_to_u64 := toUint64;
    fmt_f64 := formatFloat;
    fmt_f32 := formatFloat
  |}.

(** Whether a binary32 lies in the closed interval [[lo, hi] / 10^scale]. *)
Definition between (lo hi : Z) (scale : positive) (x : spec_float) : bool :=
  let q (z : Z) := SFdiv 53 1024 (binary_normalize 53 1024 z 0 false)
                                 (binary_normalize 53 1024 (Zpos scale) 0 false) in
  SFleb (q lo) (widen x) && SFleb (widen x) (q hi).

(** A civil date and time of day. *)
Record civil : Type := {
    year : Z; month : Z; day : Z; hour : Z; minute : Z; second : Z
  }.

Definition isLeap (y : Z) : bool :=
  (y mod 4 =? 0) && (negb (y mod 100 =? 0) || (y mod 400 =? 0)).

Definition daysIn (y m : Z) : Z :=
  if m =? 2 then (if isLeap y then 29 else 28)
  else if (m =? 4) || (m =? 6) || (m =? 9) || (m =? 11) then 30 else 31.

(** Days from 1970-01-01 to a date of the proleptic Gregorian calendar. *)
Definition daysFromCivil (y m d : Z) : Z :=
  let y' := if m <=? 2 then y - 1 else y in
  let era := y' / 400 in
  let yoe := y' - era * 400 in
  let doy := (153 * (if 2 <? m then m - 3 else m + 9) + 2) / 5 + d - 1 in
  let doe := yoe * 365 + yoe / 4 - yoe / 100 + doy in
  era * 146097 + doe - 719468.

Definition unixOf (c : civil) : Z :=
  daysFromCivil (year c) (month c) (day c) * 86400
  + hour c * 3600 + minute c * 60 + second c.

(** Exactly [n] digits at the head of [s]. *)
Fixpoint fixedDigits (n : nat) (s : string) (acc : Z) : option (Z * string) :=
  match n with
  | O => Some (acc, s)
  | S n' =>
      match s with
      | String c s' =>
          match digitOf c with
          | Some d => fixedDigits n' s' (10 * acc + d)
          | None => None
          end
      | EmptyString => None
      end
  end.

Definition expect (c : ascii) (s : string) : option string :=
  match s with
  | String a s' => if Ascii.eqb a c then Some s' else None
  | EmptyString => None
  end.

(** A value of the shape [YYYY:MM:DD HH:MM:SS] whose fields are in range. *)
Definition parseCivil (s : string) : option civil :=
  '(y, s) ← fixedDigits 4 s 0; s ← expect ":" s;
  '(mo, s) ← fixedDigits 2 s 0; s ← expect ":" s;
  '(d, s) ← fixedDigits 2 s 0; s ← expect " " s;
  '(h, s) ← fixedDigits 2 s 0; s ← expect ":" s;
  '(mi, s) ← fixedDigits 2 s 0; s ← expect ":" s;
  '(se, s) ← fixedDigits 2 s 0;
  match s with
  | EmptyString =>
      if (1 <=? mo) && (mo <=? 12) && (1 <=? d) && (d <=? daysIn y mo)
         && (h <? 24) && (mi <? 60) && (se <? 60)
      then Some {| year := y; month := mo; day := d;
                   hour := h; minute := mi; second := se |}
      else None
  | _ => None
  end.

(** Only the layout of the indexer is supported; the zone is UTC, as
    [time.Parse] takes it when the layout names none. *)
Definition parseTime (layout value : string) : civil + string :=
  if String.eqb layout "2006:01:02 15:04:05" then
    match parseCivil value with
    | Some c => inl c
    | None => inr ("parsing time " ++ value ++ " as " ++ layout)
    end
  else inr ("layout " ++ layout ++ " is not supported").

#[export] Instance times : TimeLib := {|
    time_Time := civil;
    time_Parse := parseTime;
    time_Unix := unixOf
  |}.

End Reference.

(** ** Concurrent indexer: configuration, converter, push *)

Module Metadata.

Definition apertureKey := "Aperture".
Definition shutterKey := "ShutterSpeed".
Definition keywordsKey := "Keywords".
Definition cameraKey := "Model".
Definition lensKey := "LensModel".
Definition mimeTypeKey := "MIMEType".
Definition heightKey := "ImageHeight".
Definition widthKey := "ImageWidth".
Definition captureDateKey := "CreateDate".
Definition gpsKey := "GPSPosition".
Definition isoKey := "ISO".
Definition ndJsonMimeType := "application/x-ndjson".
Definition bulkSuffix := "_bulk".
Definition defaultExtrationThreadCount : Z := 4.
Definition defaultToExtractChannelSize : Z := 50.

(** [conf.ElasticsearchConf], with the fields the indexer reads. *)
Record ElasticsearchConf : Type := {
    Url : string;
    ExtractionThreadCount : Z;
    ToExtractChannelSize : Z
  }.

Record Indexer : Type := { conf : ElasticsearchConf }.

Definition extractionThreadCount (idxer : Indexer) : Z :=
  let n := ExtractionThreadCount (conf idxer) in
  if n <? 1 then defaultExtrationThreadCount else n.

Definition toExtractChannelSize (idxer : Indexer) : Z :=
  let n := ToExtractChannelSize (conf idxer) in
  if n <? 1 then defaultToExtractChannelSize else n.

Section Convert.
(** The helpers [getFloat64], [getInt64], [getString], [getStrings],
    [getDate], [getGPS] and [common.GetImportID] are defined in files of
    the package that are not at hand; each returns one value, of a type
    left open here. *)
Variables (meta context importID float64p int64p stringp stringsp datep gpsp : Type).
Variable ExtractMetadata : string -> list meta.
Variable noMeta : meta.
Variable GetImportID : context -> importID.
Variable getFloat64 : meta -> string -> float64p.
Variable getInt64 : meta -> string -> int64p.
Variable getString : meta -> string -> stringp.
Variable getStrings : meta -> string -> stringsp.
Variable getDate : meta -> string -> datep.
Variable getGPS : meta -> string -> gpsp.
Variable PathSeparator : ascii.

Record Model : Type := {
    ImportID : importID;
    Aperture : float64p;
    ISO : int64p;
    ShutterSpeed : stringp;
    CameraModel : stringp;
    LensModel : stringp;
    MimeType : stringp;
    Height : int64p;
    Width : int64p;
    Keywords : stringsp;
    FileSize : Z;
    FileName : string;
    Date : datep;
    GPS : gpsp;
    Folder : string
  }.

Definition convert (ctx : context) (f : string) (fInfo : FileInfo) : result Model :=
  let metas := ExtractMetadata f in
  if negb (Nat.eqb (length metas) 1) then
    Err ("wrong metadata count (" ++ Go.FormatInt (Z.of_nat (length metas)) ++ ")")
  else
    let meta := nth 0 metas noMeta in
    let components := Go.Split f PathSeparator in
    Ok {| ImportID := GetImportID ctx;
          Aperture := getFloat64 meta apertureKey;
          ISO := getInt64 meta isoKey;
          ShutterSpeed := getString meta shutterKey;
          CameraModel := getString meta cameraKey;
          LensModel := getString meta lensKey;
          MimeType := getString meta mimeTypeKey;
          Height := getInt64 meta heightKey;
          Width := getInt64 meta widthKey;
          Keywords := getStrings meta keywordsKey;
          FileSize := Size fInfo mod 2 ^ 64;
          FileName := Name fInfo;
          Date := getDate meta captureDateKey;
          GPS := getGPS meta gpsKey;
          Folder := if Nat.ltb 1 (length components)
                    then nth (length components - 2) components EmptyString
                    else EmptyString |}.
End Convert.

Section Push.
(** [net/url]: parsing, the [Path] field and [String]; [path.Join]; and
    the HTTP client, whose [Post] either fails (transport error, time-out
    included) or yields a response. *)
Variable URL : Type.
Variable url_Parse : string -> URL + string.
Variable URL_Path : URL -> string.
Variable URL_withPath : URL -> string -> URL.
Variable URL_String : URL -> string.
Variable path_Join : string -> string -> string.

Record Request : Type := {
    method : string;
    target : string;
    contentType : string;
    body : string
  }.

Record Response : Type := { StatusCode : Z }.

Variable http_Do : Request -> Response + string.

(** The request of [httpClient.Post(u.String(), ndJsonMimeType, buffer)]
    once [u.Path] has been joined with the bulk suffix. *)
Definition bulkRequest (u : URL) (buffer : string) : Request :=
  {| method := "POST";
     target := URL_String (URL_withPath u (path_Join (URL_Path u) bulkSuffix));
     contentType := ndJsonMimeType;
     body := buffer |}.

(** [Push]: the requests sent, in order, and the error returned ([None]
    for nil). *)
Definition Push (idxer : Indexer) (buffer : string) : list Request * option string :=
  match url_Parse (Url (conf idxer)) with
  | inr err =>
      ([], Some ("error while parsing elasticsearch url (" ++ Url (conf idxer)
                 ++ "): " ++ err))
  | inl u =>
      let req := bulkRequest u buffer in
      match http_Do req with
      | inr err => ([req], Some ("Error while pushing to Elasticsearch: " ++ err))
      | inl resp =>
          if (StatusCode resp <? 200) || (300 <=? StatusCode resp) then
            ([req], Some ("Wrong status code (" ++ Go.FormatInt (StatusCode resp) ++ ")"))
          else ([req], None)
      end
  end.
End Push.

End Metadata.

(** ** Concurrent indexer: the pipeline of [Dump]

    The goroutines of one [Dump] call as an interleaving of atomic steps over
    a shared state: the two buffered channels, the cancellation flag of the
    context, the two wait groups, the writer and the log. A blocked operation
    (a send to a full channel, a receive from an empty open channel, a
    [Wait] on a non-zero counter) has no step. *)

Module Pipeline.

Section Pipeline.
Variables (Model header : Type).

Record extractTask : Type := { path : string; info : FileInfo }.
Record printTask : Type := { hdr : header; pic : Model }.

(** [idxer.convert] under the context of the run, [getBulkEntryHeader], and
    the two [Encode] calls of the emitter: the line written, or the error
    returned. Log entries hold the message; the file field is left out. *)
Variable convert : string -> FileInfo -> result Model.
Variable getBulkEntryHeader : string -> Model -> result header.
Variable Encode_header : header -> string + string.
Variable Encode_pic : Model -> string + string.

(** Modelled from the spec: [common.BrowseImages], which is not at hand.
    It calls back once for every regular file found, in some order, and
    then returns the traversal error, if there was one. *)
Record browse : Type := {
    found : list extractTask;
    failure : option string
  }.

Record chan (A : Type) : Type := {
    buf : list A;
    cap : nat;
    closed : bool
  }.
Arguments buf {A} c.
Arguments cap {A} c.
Arguments closed {A} c.

Definition push {A} (a : A) (c : chan A) : chan A :=
  {| buf := buf c ++ [a]; cap := cap c; closed := closed c |}.
Definition pop {A} (c : chan A) : chan A :=
  {| buf := tl (buf c); cap := cap c; closed := closed c |}.
Definition close {A} (c : chan A) : chan A :=
  {| buf := buf c; cap := cap c; closed := true |}.
Definition hasRoom {A} (c : chan A) : bool := Nat.ltb (length (buf c)) (cap c).

(** Where [Dump] stands: inside [BrowseImages] with callbacks still to come,
    after [close(toExtractChan)], at [wg.Wait()], or returned. *)
Inductive main_pc : Type :=
  | MBrowse (todo : list extractTask) (err : option string)
  | MAfterClose (err : option string)
  | MWait
  | MReturned (err : option string).

(** Where the emitter [dump] stands. *)
Inductive emitter_pc : Type :=
  | ERecv
  | ESelect (t : printTask)
  | EHeader (t : printTask)
  | EPic (t : printTask)
  | ECancel
  | EExit
  | EDone.

(** Where a converter goroutine stands. *)
Inductive worker_pc : Type :=
  | WRecv
  | WSelect (t : extractTask)
  | WConvert (t : extractTask)
  | WHeader (t : extractTask) (p : Model)
  | WSend (t : printTask)
  | WCancel
  | WExit
  | WDone.

(** Where [startConverters] stands. *)
Inductive coord_pc : Type :=
  | CStart
  | CWait
  | CClose
  | CExit
  | CDone.

Record state : Type := {
    mainT : main_pc;
    emitterT : emitter_pc;
    coordT : coord_pc;
    workers : list worker_pc;
    threads : nat;
    toExtractChan : chan extractTask;
    toDumpChan : chan printTask;
    cancelled : bool;
    wg : nat;
    consumeWg : nat;
    written : list string;
    failures : list string;
    crashed : option string
  }.

Definition setMain (v : main_pc) (s : state) : state :=
  {| mainT := v; emitterT := emitterT s; coordT := coordT s; workers := workers s;
     threads := threads s; toExtractChan := toExtractChan s;
     toDumpChan := toDumpChan s; cancelled := cancelled s; wg := wg s;
     consumeWg := consumeWg s; written := written s; failures := failures s;
     crashed := crashed s |}.
Definition setEmitter (v : emitter_pc) (s : state) : state :=
  {| mainT := mainT s; emitterT := v; coordT := coordT s; workers := workers s;
     threads := threads s; toExtractChan := toExtractChan s;
     toDumpChan := toDumpChan s; cancelled := cancelled s; wg := wg s;
     consumeWg := consumeWg s; written := written s; failures := failures s;
     crashed := crashed s |}.
Definition setCoord (v : coord_pc) (s : state) : state :=
  {| mainT := mainT s; emitterT := emitterT s; coordT := v; workers := workers s;
     threads := threads s; toExtractChan := toExtractChan s;
     toDumpChan := toDumpChan s; cancelled := cancelled s; wg := wg s;
     consumeWg := consumeWg s; written := written s; failures := failures s;
     crashed := crashed s |}.
Definition setWorkers (v : list worker_pc) (s : state) : state :=
  {| mainT := mainT s; emitterT := emitterT s; coordT := coordT s; workers := v;
     threads := threads s; toExtractChan := toExtractChan s;
     toDumpChan := toDumpChan s; cancelled := cancelled s; wg := wg s;
     consumeWg := consumeWg s; written := written s; failures := failures s;
     crashed := crashed s |}.
Definition setToExtract (v : chan extractTask) (s : state) : state :=
  {| mainT := mainT s; emitterT := emitterT s; coordT := coordT s;
     workers := workers s; threads := threads s; toExtractChan := v;
     toDumpChan := toDumpChan s; cancelled := cancelled s; wg := wg s;
     consumeWg := consumeWg s; written := written s; failures := failures s;
     crashed := crashed s |}.
Definition setToDump (v : chan printTask) (s : state) : state :=
  {| mainT := mainT s; emitterT := emitterT s; coordT := coordT s;
     workers := workers s; threads := threads s; toExtractChan := toExtractChan s;
     toDumpChan := v; cancelled := cancelled s; wg := wg s;
     consumeWg := consumeWg s; written := written s; failures := failures s;
     crashed := crashed s |}.
(** [cancel()]: idempotent. *)
Definition cancel (s : state) : state :=
  {| mainT := mainT s; emitterT := emitterT s; coordT := coordT s;
     workers := workers s; threads := threads s; toExtractChan := toExtractChan s;
     toDumpChan := toDumpChan s; cancelled := true; wg := wg s;
     consumeWg := consumeWg s; written := written s; failures := failures s;
     crashed := crashed s |}.
Definition setWg (v : nat) (s : state) : state :=
  {| mainT := mainT s; emitterT := emitterT s; coordT := coordT s;
     workers := workers s; threads := threads s; toExtractChan := toExtractChan s;
     toDumpChan := toDumpChan s; cancelled := cancelled s; wg := v;
     consumeWg := consumeWg s; written := written s; failures := failures s;
     crashed := crashed s |}.
Definition setConsumeWg (v : nat) (s : state) : state :=
  {| mainT := mainT s; emitterT := emitterT s; coordT := coordT s;
     workers := workers s; threads := threads s; toExtractChan := toExtractChan s;
     toDumpChan := toDumpChan s; cancelled := cancelled s; wg := wg s;
     consumeWg := v; written := written s; failures := failures s;
     crashed := crashed s |}.
Definition write (l : string) (s : state) : state :=
  {| mainT := mainT s; emitterT := emitterT s; coordT := coordT s;
     workers := workers s; threads := threads s; toExtractChan := toExtractChan s;
     toDumpChan := toDumpChan s; cancelled := cancelled s; wg := wg s;
     consumeWg := consumeWg s; written := written s ++ [l];
     failures := failures s; crashed := crashed s |}.
(** A failure reported with [log.Error()]. *)
Definition logError (l : string) (s : state) : state :=
  {| mainT := mainT s; emitterT := emitterT s; coordT := coordT s;
     workers := workers s; threads := threads s; toExtractChan := toExtractChan s;
     toDumpChan := toDumpChan s; cancelled := cancelled s; wg := wg s;
     consumeWg := consumeWg s; written := written s;
     failures := failures s ++ [l]; crashed := crashed s |}.
(** An unrecovered panic ends the process. *)
Definition crash (p : string) (s : state) : state :=
  {| mainT := mainT s; emitterT := emitterT s; coordT := coordT s;
     workers := workers s; threads := threads s; toExtractChan := toExtractChan s;
     toDumpChan := toDumpChan s; cancelled := cancelled s; wg := wg s;
     consumeWg := consumeWg s; written := written s; failures := failures s;
     crashed := Some p |}.

Definition setWorker (i : nat) (w : worker_pc) (s : state) : state :=
  setWorkers (<[i := w]> (workers s)) s.

(** The state of [Dump] once both [go] statements have run: the counter of
    [wg] is 2 and neither goroutine has taken a step. *)
Definition init (idxer : Metadata.Indexer) (b : browse) : state :=
  {| mainT := MBrowse (found b) (failure b);
     emitterT := ERecv;
     coordT := CStart;
     workers := [];
     threads := Z.to_nat (Metadata.extractionThreadCount idxer);
     toExtractChan := {| buf := []; closed := false;
                         cap := Z.to_nat (Metadata.toExtractChannelSize idxer) |};
     toDumpChan := {| buf := []; closed := false;
                      cap := Z.to_nat (Metadata.extractionThreadCount idxer) |};
     cancelled := false;
     wg := 2;
     consumeWg := 0;
     written := [];
     failures := [];
     crashed := None |}.

(** One step of [Dump] itself. *)
Definition stepMain (s : state) : option state :=
  match mainT s with
  | MBrowse (t :: todo) err =>
      if closed (toExtractChan s) then Some (crash "send on closed channel" s)
      else if hasRoom (toExtractChan s)
      then Some (setMain (MBrowse todo err) (setToExtract (push t (toExtractChan s)) s))
      else None
  | MBrowse [] err =>
      Some (setMain (MAfterClose err) (setToExtract (close (toExtractChan s)) s))
  | MAfterClose (Some err) =>
      Some (setMain (MReturned (Some ("error while browsing directory: " ++ err)))
                    (cancel s))
  | MAfterClose None => Some (setMain MWait s)
  | MWait => if Nat.eqb (wg s) 0 then Some (setMain (MReturned None) s) else None
  | MReturned _ => None
  end.

(** One step of the emitter [dump]. *)
Definition stepEmitter (s : state) : option state :=
  match emitterT s with
  | ERecv =>
      match buf (toDumpChan s) with
      | t :: _ => Some (setEmitter (ESelect t) (setToDump (pop (toDumpChan s)) s))
      | [] => if closed (toDumpChan s) then Some (setEmitter EExit s) else None
      end
  | ESelect t =>
      Some (setEmitter (if cancelled s then EExit else EHeader t) s)
  | EHeader t =>
      match Encode_header (hdr t) with
      | inl l => Some (setEmitter (EPic t) (write l s))
      | inr err =>
          Some (setEmitter ECancel
                  (logError ("error while encoding header: " ++ err) s))
      end
  | EPic t =>
      match Encode_pic (pic t) with
      | inl l => Some (setEmitter ERecv (write l s))
      | inr err =>
          Some (setEmitter ECancel
                  (logError ("error while encoding json: " ++ err) s))
      end
  | ECancel => Some (setEmitter EExit (cancel s))
  | EExit => Some (setEmitter EDone (setWg (wg s - 1) s))
  | EDone => None
  end.

(** One step of [startConverters]. *)
Definition stepCoord (s : state) : option state :=
  match coordT s with
  | CStart =>
      Some (setCoord CWait
              (setWorkers (replicate (threads s) WRecv)
                 (setConsumeWg (threads s) s)))
  | CWait => if Nat.eqb (consumeWg s) 0 then Some (setCoord CClose s) else None
  | CClose => Some (setCoord CExit (setToDump (close (toDumpChan s)) s))
  | CExit => Some (setCoord CDone (setWg (wg s - 1) s))
  | CDone => None
  end.

(** One step of converter goroutine [i]. *)
Definition stepWorker (i : nat) (s : state) : option state :=
  match workers s !! i with
  | None => None
  | Some WRecv =>
      match buf (toExtractChan s) with
      | t :: _ => Some (setWorker i (WSelect t) (setToExtract (pop (toExtractChan s)) s))
      | [] => if closed (toExtractChan s) then Some (setWorker i WExit s) else None
      end
  | Some (WSelect t) =>
      Some (setWorker i (if cancelled s then WExit else WConvert t) s)
  | Some (WConvert t) =>
      match convert (path t) (info t) with
      | Ok p => Some (setWorker i (WHeader t p) s)
      | Err e => Some (setWorker i WCancel (logError ("conversion error: " ++ e) s))
      | Panic p => Some (crash p s)
      end
  | Some (WHeader t p) =>
      match getBulkEntryHeader (path t) p with
      | Ok h => Some (setWorker i (WSend {| hdr := h; pic := p |}) s)
      | Err e =>
          Some (setWorker i WCancel
                  (logError ("error while generating header: " ++ e) s))
      | Panic p => Some (crash p s)
      end
  | Some (WSend t) =>
      if closed (toDumpChan s) then Some (crash "send on closed channel" s)
      else if hasRoom (toDumpChan s)
      then Some (setWorker i WRecv (setToDump (push t (toDumpChan s)) s))
      else None
  | Some WCancel => Some (setWorker i WExit (cancel s))
  | Some WExit => Some (setWorker i WDone (setConsumeWg (consumeWg s - 1) s))
  | Some WDone => None
  end.

(** Which goroutine moves; [AParent] is the caller cancelling the context
    [Dump] was given. *)
Inductive action : Type :=
  | AMain
  | AEmitter
  | ACoord
  | AWorker (i : nat)
  | AParent.

Definition step (s : state) (a : action) : option state :=
  match crashed s with
  | Some _ => None
  | None =>
      match a with
      | AMain => stepMain s
      | AEmitter => stepEmitter s
      | ACoord => stepCoord s
      | AWorker i => stepWorker i s
      | AParent => Some (cancel s)
      end
  end.

(** A schedule, run from a state. *)
Fixpoint run (acts : list action) (s : state) : option state :=
  match acts with
  | [] => Some s
  | a :: acts' =>
      match step s a with
      | Some s' => run acts' s'
      | None => None
      end
  end.

Definition reachable (idxer : Metadata.Indexer) (b : browse) (s : state) : Prop :=
  exists acts, run acts (init idxer b) = Some s.

(** No goroutine of the run can move: every action but a cancellation by
    the caller has no step. *)
Definition stuck (s : state) : Prop := forall a, a <> AParent -> step s a = None.

(** A worker or the emitter has signalled a failure. *)
Definition failed (s : state) : bool :=
  match failures s with [] => false | _ => true end.

Definition workerDone (w : worker_pc) : bool :=
  match w with WDone => true | _ => false end.
Definition emitterDone (s : state) : bool :=
  match emitterT s with EDone => true | _ => false end.
Definition coordDone (s : state) : bool :=
  match coordT s with CDone => true | _ => false end.

(** Every goroutine [Dump] has started, directly or not, has finished. *)
Definition allDone (s : state) : bool :=
  emitterDone s && coordDone s && forallb workerDone (workers s).

(** The number of converter goroutines that have not finished. *)
Fixpoint active (ws : list worker_pc) : nat :=
  match ws with
  | [] => 0%nat
  | w :: ws' => ((if workerDone w then 0 else 1) + active ws')%nat
  end.

(** [Dump] carries the result [e] of the walk to its return statement. *)
Definition carries (e : option string) (s : state) : Prop :=
  match mainT s with
  | MBrowse _ e' => e' = e
  | MAfterClose e' => e' = e
  | MWait => e = None
  | MReturned r =>
      r = match e with
          | Some err => Some ("error while browsing directory: " ++ err)
          | None => None
          end
  end.

(** The counter of [wg] counts the emitter and [startConverters] as long
    as they have not finished, the counter of [consumeWg] counts the
    converter goroutines that have not finished, [startConverters] is past
    its [Wait] only when they all have, and [Dump] has returned nil only
    when every goroutine has finished. *)
Definition counted (s : state) : Prop :=
  wg s = ((if emitterDone s then 0 else 1) + (if coordDone s then 0 else 1))%nat
  /\ match coordT s with
     | CStart => workers s = []
     | CWait => consumeWg s = active (workers s)
     | _ => active (workers s) = 0%nat
     end
  /\ (mainT s = MReturned None -> allDone s = true).

(** The error value [Dump] builds from the result of the walk. *)
Definition walkError (b : browse) : option string :=
  match failure b with
  | Some err => Some ("error while browsing directory: " ++ err)
  | None => None
  end.

End Pipeline.

Arguments buf {A} c.
Arguments cap {A} c.
Arguments closed {A} c.
Arguments hdr {Model header} p.
Arguments pic {Model header} p.
Arguments mainT {Model header} s.
Arguments emitterT {Model header} s.
Arguments coordT {Model header} s.
Arguments workers {Model header} s.
Arguments threads {Model header} s.
Arguments toExtractChan {Model header} s.
Arguments toDumpChan {Model header} s.
Arguments cancelled {Model header} s.
Arguments wg {Model header} s.
Arguments consumeWg {Model header} s.
Arguments written {Model header} s.
Arguments failures {Model header} s.
Arguments crashed {Model header} s.
Arguments failed {Model header} s.
Arguments allDone {Model header} s.
Arguments emitterDone {Model header} s.
Arguments coordDone {Model header} s.
Arguments workerDone {Model header} w.
Arguments active {Model header} ws.
Arguments carries {Model header} e s.
Arguments counted {Model header} s.
Arguments WDone {Model header}.
Arguments WRecv {Model header}.
Arguments WExit {Model header}.
Arguments WCancel {Model header}.
Arguments EDone {Model header}.
Arguments ERecv {Model header}.
Arguments EExit {Model header}.
Arguments ECancel {Model header}.

End Pipeline.

(** ** What the description of the GPS converter says, and sample inputs *)

Module Stated.

Section Decimal.
Context `{FL : FloatLib}.

(** The sign of a hemisphere letter: negative for S and W, positive for
    N and E. *)
Definition sign (letter : string) : option Z :=
  if String.eqb letter "S" || String.eqb letter "W" then Some (-1)
  else if String.eqb letter "N" || String.eqb letter "E" then Some 1
  else None.

(** [degrees + minutes/60 + seconds/3600], with the sign applied,
    computed in [float64] and stored as [float32]. *)
Definition decimal (deg min sec : float64) (sg : Z) : float32 :=
  f64_to_f32
    (f64_mul
       (f64_add (f64_add deg (f64_div min (f64_of_Z 60)))
                (f64_div sec (f64_of_Z 3600)))
       (f64_of_Z sg)).
End Decimal.

(** [s] followed by one more byte. *)
Definition snoc (s : string) (c : ascii) : string := s ++ String c EmptyString.

End Stated.

Module Sample.

(** A position as the extractor prints it: a comma follows the latitude
    hemisphere. *)
Definition paris : string :=
  "48 deg 51' 29.00" ++ Go.dquote ++ " N, 2 deg 17' 40.00" ++ Go.dquote ++ " E".

(** The same position without the comma. *)
Definition parisNoComma : string :=
  "48 deg 51' 29.00" ++ Go.dquote ++ " N 2 deg 17' 40.00" ++ Go.dquote ++ " E".

(** Ten tokens, one of them empty: two spaces in a row at the place of
    token [i]. *)
Definition emptyMinutes : string :=
  "48 deg  29.00" ++ Go.dquote ++ " N, 2 deg 17' 40.00" ++ Go.dquote ++ " E".
Definition emptySeconds : string :=
  "48 deg 51'  N, 2 deg 17' 40.00" ++ Go.dquote ++ " E".
Definition emptyHemisphere : string :=
  "48 deg 51' 29.00" ++ Go.dquote ++ "  2 deg 17' 40.00" ++ Go.dquote ++ " E".
Definition emptyLongMinutes : string :=
  "48 deg 51' 29.00" ++ Go.dquote ++ " N, 2 deg  40.00" ++ Go.dquote ++ " E".
Definition emptyLongSeconds : string :=
  "48 deg 51' 29.00" ++ Go.dquote ++ " N, 2 deg 17'  E".

Definition emptyAt (i : nat) : string :=
  match i with
  | 2%nat => emptyMinutes
  | 3%nat => emptySeconds
  | 4%nat => emptyHemisphere
  | 7%nat => emptyLongMinutes
  | _ => emptyLongSeconds
  end.

Section Records.
Import Legacy.
Existing Instance Reference.floats.
Existing Instance Reference.times.
Local Abbreviation value := (value float64).
Local Abbreviation FileMetadata := (FileMetadata float64).
Local Abbreviation Model := (Model float64).

Definition record (fields : list (string * value)) : FileMetadata :=
  {| File := "a.jpg"; Fields := list_to_map fields |}.

(** Values of a type the decoder does not expect. *)
Definition stringAperture : FileMetadata := record [("Aperture", VString "2.8")].
Definition stringHeight : FileMetadata := record [("ImageHeight", VString "3000")].
Definition mixedKeywords : FileMetadata :=
  record [("Keywords", VSlice [VString "sea"; VFloat (f64_of_Z 2021)])].

Definition dated : FileMetadata :=
  record [("CreateDate", VString "2021:03:15 10:30:00")].
Definition badDate : FileMetadata :=
  record [("CreateDate", VString "15/03/2021 10:30")].

Definition jpeg : FileMetadata :=
  record [("MIMEType", VString "image/jpeg"); ("ImageWidth", VFloat (f64_of_Z 4000));
          ("Keywords", VString "sea")].
Definition pdf : FileMetadata := record [("MIMEType", VString "application/pdf")].

Definition aFile (name : string) : FileInfo :=
  {| Name := name; Size := 1234; IsDir := false |}.
Definition aDir (name : string) : FileInfo :=
  {| Name := name; Size := 4096; IsDir := true |}.

(** A tree with a picture, a document and a file the extractor returns
    nothing for. *)
Definition extract (f : string) : list FileMetadata :=
  if String.eqb f "album/sea.jpg" then [jpeg]
  else if String.eqb f "album/notes.pdf" then [pdf]
  else [].
Definition encode (pic : Model) : string + string := inl ("{" ++ FileName pic ++ "}").
Definition album : list visit :=
  [Visit "album" (aDir "album");
   Visit "album/broken.bin" (aFile "broken.bin");
   Visit "album/notes.pdf" (aFile "notes.pdf");
   Visit "album/sea.jpg" (aFile "sea.jpg")].
Definition unreadable : list visit :=
  [Visit "album" (aDir "album");
   Visit "album/sea.jpg" (aFile "sea.jpg");
   VisitError "album/private" "open album/private: permission denied";
   Visit "album/notes.pdf" (aFile "notes.pdf")].
End Records.

End Sample.

(** ** Sample runs of the pipeline *)

Module Scenario.
Import Pipeline.

(** Records and headers are strings here: the record of a file is its
    name and its header is its path. One file has no metadata record, one
    gets no header, and the header of one cannot be written. *)
Definition convert (p : string) (i : FileInfo) : result string :=
  if String.eqb p "album/broken.bin" then Err "wrong metadata count (0)"
  else Ok (Name i).
Definition getBulkEntryHeader (p : string) (pic : string) : result string :=
  if String.eqb p "album/noid.jpg" then Err "no identifier" else Ok p.
Definition encodeHeader (h : string) : string + string :=
  if String.eqb h "album/unwritable.jpg" then inr "short write" else inl h.
Definition encodePic (pic : string) : string + string := inl pic.

(** One converter goroutine and a queue of one task. *)
Definition idxer : Metadata.Indexer :=
  {| Metadata.conf := {| Metadata.Url := "http://localhost:9200";
                         Metadata.ExtractionThreadCount := 1;
                         Metadata.ToExtractChannelSize := 1 |} |}.

Definition task (name : string) : extractTask :=
  {| path := "album/" ++ name; info := Sample.aFile name |}.

Definition oneBroken : browse := {| found := [task "broken.bin"]; failure := None |}.
Definition oneWithoutHeader : browse := {| found := [task "noid.jpg"]; failure := None |}.
Definition oneUnwritable : browse :=
  {| found := [task "unwritable.jpg"]; failure := None |}.
Definition onePicture : browse := {| found := [task "sea.jpg"]; failure := None |}.
Definition brokenFirst : browse :=
  {| found := [task "broken.bin"; task "sea.jpg"; task "hill.jpg"]; failure := None |}.
Definition missingRoot : browse :=
  {| found := []; failure := Some "lstat /missing: no such file or directory" |}.

Definition run : list action -> state string string -> option (state string string) :=
  Pipeline.run string string convert getBulkEntryHeader encodeHeader encodePic.
Definition start : browse -> state string string := init string string idxer.

(** The walk finishes, the only converter takes the file and fails on it,
    every goroutine unwinds, and [Dump] passes [wg.Wait()]. *)
Definition failingConversion : list action :=
  [ACoord; AMain; AMain; AMain;
   AWorker 0; AWorker 0; AWorker 0; AWorker 0; AWorker 0;
   ACoord; ACoord; ACoord; AEmitter; AEmitter; AMain].

(** The same with a failure of the header, one step later. *)
Definition failingHeader : list action :=
  [ACoord; AMain; AMain; AMain;
   AWorker 0; AWorker 0; AWorker 0; AWorker 0; AWorker 0; AWorker 0;
   ACoord; ACoord; ACoord; AEmitter; AEmitter; AMain].

(** The converter hands the task over and finishes; the emitter fails to
    encode the header, cancels and finishes. *)
Definition failingEncode : list action :=
  [ACoord; AMain; AMain; AMain;
   AWorker 0; AWorker 0; AWorker 0; AWorker 0; AWorker 0; AWorker 0; AWorker 0;
   ACoord; ACoord; ACoord;
   AEmitter; AEmitter; AEmitter; AEmitter; AEmitter; AMain].

(** A run without any failure. *)
Definition cleanRun : list action :=
  [ACoord; AMain; AMain; AMain;
   AWorker 0; AWorker 0; AWorker 0; AWorker 0; AWorker 0; AWorker 0; AWorker 0;
   ACoord; ACoord; ACoord;
   AEmitter; AEmitter; AEmitter; AEmitter; AEmitter; AEmitter; AMain].

(** The walk fails at once: [Dump] closes the queue, cancels and returns. *)
Definition failingWalk : list action := [AMain; AMain].

(** The only converter fails on the first file and leaves; the walk fills
    the queue with the second file and waits for room for the third. *)
Definition abandonedWalk : list action :=
  [ACoord; AMain; AWorker 0; AWorker 0; AWorker 0; AWorker 0; AWorker 0;
   ACoord; ACoord; ACoord; AEmitter; AEmitter; AMain].

End Scenario.

(** ** Concurrent indexer: counting the tasks of a run *)

Module Census.

Section Census.
Variables (Model header : Type).
Variable Encode_header : header -> string + string.
Variable Encode_pic : Model -> string + string.
Import Pipeline.

Local Abbreviation state := (Pipeline.state Model header).
Local Abbreviation worker_pc := (Pipeline.worker_pc Model header).
Local Abbreviation emitter_pc := (Pipeline.emitter_pc Model header).
Local Abbreviation printTask := (Pipeline.printTask Model header).

(** The sum of a measure over the converter goroutines. *)
Fixpoint tally (f : worker_pc -> nat) (ws : list worker_pc) : nat :=
  match ws with
  | [] => 0%nat
  | w :: ws' => (f w + tally f ws')%nat
  end.

(** A converter goroutine that has taken a task from the queue and has not
    yet handed it over or dropped it. *)
Definition holds (w : worker_pc) : nat :=
  match w with
  | WSelect _ _ _ | WConvert _ _ _ | WHeader _ _ _ _ | WSend _ _ _ => 1%nat
  | _ => 0%nat
  end.

(** A converter goroutine that has left its loop. *)
Definition gone (w : worker_pc) : nat :=
  match w with
  | WExit | WDone => 1%nat
  | _ => 0%nat
  end.

(** A converter goroutine about to call [cancel()]. *)
Definition cancelling (w : worker_pc) : nat :=
  match w with
  | WCancel => 1%nat
  | _ => 0%nat
  end.

(** A converter goroutine about to call [consumeWg.Done()]. *)
Definition leaving (w : worker_pc) : nat :=
  match w with
  | WExit => 1%nat
  | _ => 0%nat
  end.

(** A converter goroutine about to send on [toDumpChan]. *)
Definition sending (w : worker_pc) : nat :=
  match w with
  | WSend _ _ _ => 1%nat
  | _ => 0%nat
  end.

Definition emitterHolds (e : emitter_pc) : nat :=
  match e with
  | ESelect _ _ _ | EHeader _ _ _ | EPic _ _ _ => 1%nat
  | _ => 0%nat
  end.

Definition emitterGone (e : emitter_pc) : bool :=
  match e with
  | EExit | EDone => true
  | _ => false
  end.

Definition midPair (e : emitter_pc) : nat :=
  match e with
  | EPic _ _ _ => 1%nat
  | _ => 0%nat
  end.

(** The callbacks [BrowseImages] still has to make. *)
Definition todo (m : main_pc) : nat :=
  match m with
  | MBrowse l _ => length l
  | _ => 0%nat
  end.

Definition browsing (m : main_pc) : bool :=
  match m with
  | MBrowse _ _ => true
  | _ => false
  end.

(** The tasks on their way: not yet sent, queued, held by a converter,
    queued for the emitter, or held by the emitter. *)
Definition inFlight (s : state) : nat :=
  (todo (mainT s) + length (buf (toExtractChan s)) + tally holds (workers s)
   + length (buf (toDumpChan s)) + emitterHolds (emitterT s))%nat.

(** The queues hold no more than their capacity, which is the one [Dump]
    gave them, and the pool is empty or has the configured size. *)
Definition bounded (idxer : Metadata.Indexer) (s : state) : Prop :=
  cap (toExtractChan s) = Z.to_nat (Metadata.toExtractChannelSize idxer)
  /\ cap (toDumpChan s) = Z.to_nat (Metadata.extractionThreadCount idxer)
  /\ threads s = Z.to_nat (Metadata.extractionThreadCount idxer)
  /\ (length (buf (toExtractChan s)) <= cap (toExtractChan s))%nat
  /\ (length (buf (toDumpChan s)) <= cap (toDumpChan s))%nat
  /\ length (workers s) = (if match coordT s with CStart => true | _ => false end
                           then 0%nat else threads s).

(** A channel is closed only once its senders are through: [toExtractChan]
    after the walk, [toDumpChan] after [consumeWg.Wait()]. *)
Definition sendersThrough (s : state) : Prop :=
  (closed (toExtractChan s) = true -> browsing (mainT s) = false)
  /\ (closed (toDumpChan s) = true ->
      match coordT s with CExit | CDone => True | _ => False end).

(** And the other way round: [Dump] is past the walk only with
    [toExtractChan] closed, and [startConverters] past its [close] only with
    [toDumpChan] closed. *)
Definition closedAfter (s : state) : Prop :=
  (browsing (mainT s) = false -> closed (toExtractChan s) = true)
  /\ match coordT s with
     | CExit | CDone => closed (toDumpChan s) = true
     | _ => True
     end.

(** A logged failure is followed by [cancel()]: the context is cancelled,
    or the goroutine that logged is about to cancel it. *)
Definition signalled (s : state) : Prop :=
  (failures s <> [] ->
   cancelled s = true \/ emitterT s = ECancel
   \/ (0 < tally cancelling (workers s))%nat)
  /\ (forall e, mainT s = MReturned (Some e) -> cancelled s = true).

(** As long as nothing has failed and nothing was cancelled, no task is
    lost: each of the [n] files is on its way or has its two lines written,
    and a goroutine leaves its loop only on a closed and empty queue. *)
Definition conserved (n : nat) (s : state) : Prop :=
  cancelled s = false -> failures s = [] ->
  (length (written s) + 2 * inFlight s = 2 * n + midPair (emitterT s))%nat
  /\ ((0 < tally gone (workers s))%nat ->
      closed (toExtractChan s) = true /\ buf (toExtractChan s) = [])
  /\ (emitterGone (emitterT s) = true ->
      closed (toDumpChan s) = true /\ buf (toDumpChan s) = []).

(** The two lines of a print task whose header and record both encode. *)
Definition linePair (t : printTask) : list string :=
  match Encode_header (hdr t), Encode_pic (pic t) with
  | inl h, inl p => [h; p]
  | _, _ => []
  end.

Definition encodes (t : printTask) : Prop :=
  exists h p, Encode_header (hdr t) = inl h /\ Encode_pic (pic t) = inl p.

(** What has been written is a sequence of header and record pairs,
    followed by one more header only while the emitter is between the two
    lines of a pair or after the record of that header failed to encode. *)
Definition framed (s : state) : Prop :=
  exists ts tail,
    written s = (flat_map linePair ts ++ tail)%list
    /\ Forall encodes ts
    /\ match emitterT s with
       | EPic _ _ t => exists h, Encode_header (hdr t) = inl h /\ tail = [h]
       | ERecv | ESelect _ _ _ | EHeader _ _ _ => tail = []
       | _ =>
           tail = []
           \/ exists t h e, Encode_header (hdr t) = inl h
                            /\ Encode_pic (pic t) = inr e /\ tail = [h]
                            /\ failures s <> []
       end.

(** The invariants the safety properties rest on, together. *)
Definition sound (s : state) : Prop :=
  counted s /\ sendersThrough s.

End Census.

End Census.


(** ** More of what the descriptions say *)

Module Shape.

(** [s] without its last byte; the empty string for the empty string. *)
Definition dropLast (s : string) : string :=
  match String.length s with
  | O => EmptyString
  | S n => Go.take n s
  end.

Section WellTyped.
Context `{FL : FloatLib}.

(** A key that is missing or holds a [float64]. *)
Definition numberOrAbsent (m : Legacy.FileMetadata float64) (k : string) : Prop :=
  match Legacy.Fields m !! k with
  | None | Some (Legacy.VFloat _) => True
  | Some _ => False
  end.

(** A key that is missing or holds a string. *)
Definition stringOrAbsent (m : Legacy.FileMetadata float64) (k : string) : Prop :=
  match Legacy.Fields m !! k with
  | None | Some (Legacy.VString _) => True
  | Some _ => False
  end.

Definition isString (v : Legacy.value float64) : Prop :=
  match v with Legacy.VString _ => True | _ => False end.

(** Keywords that, when they are a slice, hold only strings. *)
Definition keywordsOfStrings (m : Legacy.FileMetadata float64) : Prop :=
  match Legacy.Fields m !! Legacy.KEYWORDS_KEY with
  | Some (Legacy.VSlice l) => Forall isString l
  | _ => True
  end.

End WellTyped.

End Shape.

(** ** Legacy indexer: construction *)

Module Construct.

Section NewIndexer.
(** The handle of a running exiftool and [exif.NewExiftool()], which
    yields a handle or an error. *)
Variable Exiftool : Type.
Variable NewExiftool : Exiftool + string.

(** The legacy [Indexer]; [exif] is [None] for the nil pointer. *)
Record Indexer : Type := {
  input : string;
  exif : option Exiftool
}.

(** An option of [NewIndexer]: it may change the indexer it is given and
    returns an error or nil. *)
Definition opt : Type := Indexer -> Indexer * option string.

(** [Input]. *)
Definition Input (i : string) : opt :=
  fun idxer => ({| input := i; exif := exif idxer |}, None).

(** The loop over the options, which returns at the first error. *)
Fixpoint applyOpts (opts : list opt) (idxer : Indexer) : Indexer + string :=
  match opts with
  | [] => inl idxer
  | o :: rest =>
      match o idxer with
      | (idxer', None) => applyOpts rest idxer'
      | (_, Some err) => inr ("Initialization error: " ++ err)
      end
  end.

(** [NewIndexer]: the pointer returned ([None] for nil) and the error. *)
Definition NewIndexer (opts : list opt) : option Indexer * option string :=
  match applyOpts opts {| input := EmptyString; exif := None |} with
  | inr err => (None, Some err)
  | inl idxer =>
      match NewExiftool with
      | inr err =>
          (Some idxer, Some ("error while initializing metadata extractor: " ++ err))
      | inl et => (Some {| input := input idxer; exif := Some et |}, None)
      end
  end.

End NewIndexer.

Arguments input {Exiftool} i.
Arguments exif {Exiftool} i.

End Construct.


(** ** More sample data *)

Module Fixture.

Section Records.
Import Legacy.
Existing Instance Reference.floats.
Existing Instance Reference.times.

(** A record whose keywords are a slice of two strings. *)
Definition tagged : FileMetadata float64 :=
  Sample.record [("Keywords", VSlice [VString "sea"; VString "sun"]);
                 ("Aperture", VFloat (f64_of_Z 4))].

(** The visits of [Sample.unreadable] before the directory that cannot be
    opened, and those after it. *)
Definition reached : list visit :=
  [Visit "album" (Sample.aDir "album");
   Visit "album/sea.jpg" (Sample.aFile "sea.jpg")].
Definition skipped : list visit :=
  [Visit "album/notes.pdf" (Sample.aFile "notes.pdf")].

End Records.

(** An option that refuses the indexer it is given. *)
Definition refuse : Construct.opt unit :=
  fun idxer => (idxer, Some "unsupported option").

(** The walk has handed over its only file and [startConverters] has
    started. *)
Definition walking : list Pipeline.action := [Pipeline.ACoord; Pipeline.AMain].

End Fixture.

(** * Properties *)

(** ** Strings *)

Lemma Split_length (s : string) (c : ascii) :
  length (Go.Split s c) = S (Go.count c s).
Proof.
  induction s as [|a s IH]; simpl; [reflexivity|].
  destruct (Ascii.eqb a c); simpl.
  - now rewrite IH.
  - destruct (Go.Split s c) as [|h t]; simpl in *; lia.
Qed.

Lemma take_snoc (s : string) (c : ascii) :
  Go.take (String.length s) (Stated.snoc s c) = s.
Proof.
  induction s as [|a s IH]; simpl; [reflexivity|].
  unfold Stated.snoc in IH. now rewrite IH.
Qed.

Lemma length_snoc (s : string) (c : ascii) :
  String.length (Stated.snoc s c) = S (String.length s).
Proof. induction s as [|a s IH]; simpl; [reflexivity|]. unfold Stated.snoc in IH. now rewrite IH. Qed.

(** ** The GPS converter *)

Section GPSFacts.
Context `{FL : FloatLib}.
Import Legacy.

(** [skipLastChar] removes the last byte of a non-empty string. *)
Lemma skipLastChar_snoc (s : string) (c : ascii) :
  skipLastChar (Stated.snoc s c) = Ok s.
Proof. unfold skipLastChar. rewrite length_snoc. now rewrite take_snoc. Qed.

(** [skipLastChar] panics on the empty string and on no other. *)
Lemma skipLastChar_panics_iff (src : string) :
  is_Panic (skipLastChar src) = true <-> src = EmptyString.
Proof.
  unfold skipLastChar. destruct src as [|a s]; simpl; split; intros H;
    try reflexivity; discriminate.
Qed.

(** [degMinSecToDecimal] never panics. *)
Lemma degMinSecToDecimal_no_panic (deg min sec l : string) :
  is_Panic (degMinSecToDecimal deg min sec l) = false.
Proof.
  unfold degMinSecToDecimal.
  destruct (ParseFloat32 deg); [|reflexivity].
  destruct (ParseFloat32 min); [|reflexivity].
  destruct (ParseFloat32 sec); [|reflexivity].
  destruct (_ || _); [reflexivity|]. destruct (_ || _); reflexivity.
Qed.

(** [degMinSecToDecimal] on three numbers that parse and a hemisphere
    letter is the stated decimal. *)
Lemma degMinSecToDecimal_decimal (deg min sec l : string) (fd fm fs : float64) (sg : Z) :
  ParseFloat32 deg = Some fd -> ParseFloat32 min = Some fm ->
  ParseFloat32 sec = Some fs -> Stated.sign l = Some sg ->
  degMinSecToDecimal deg min sec l = Ok (Stated.decimal fd fm fs sg).
Proof.
  intros Hd Hm Hs Hl. unfold degMinSecToDecimal, Stated.sign in *.
  rewrite Hd, Hm, Hs.
  destruct (String.eqb l "S" || String.eqb l "W").
  - now inversion Hl.
  - destruct (String.eqb l "N" || String.eqb l "E"); [now inversion Hl | discriminate].
Qed.

(** [degMinSecToDecimal] returns an error as soon as one number does not
    parse or the letter is no hemisphere. *)
Lemma degMinSecToDecimal_error (deg min sec l : string) :
  ParseFloat32 deg = None \/ ParseFloat32 min = None \/
  ParseFloat32 sec = None \/ Stated.sign l = None ->
  is_Err (degMinSecToDecimal deg min sec l) = true.
Proof.
  unfold degMinSecToDecimal, Stated.sign.
  destruct (ParseFloat32 deg); [|reflexivity].
  destruct (ParseFloat32 min); [|reflexivity].
  destruct (ParseFloat32 sec); [|reflexivity].
  destruct (String.eqb l "S" || String.eqb l "W").
  - intros [H|[H|[H|H]]]; discriminate.
  - destruct (String.eqb l "N" || String.eqb l "E"); [|reflexivity].
    intros [H|[H|[H|H]]]; discriminate.
Qed.

(** A string that does not split into ten tokens is a format error. *)
Lemma convertGPSCoordinates_token_count (latLong : string) :
  length (Go.Split latLong " "%char) <> 10%nat ->
  convertGPSCoordinates latLong =
    Err ("Parsing inconsistency (" ++ latLong ++ "): "
         ++ Go.FormatInt (Z.of_nat (length (Go.Split latLong " "%char)))
         ++ " elements parsed").
Proof.
  intros H. unfold convertGPSCoordinates.
  destruct (Nat.eqb_spec (length (Go.Split latLong " "%char)) 10); [contradiction|].
  reflexivity.
Qed.

(** On ten tokens of which the third, fourth, fifth, eighth and ninth are
    not empty, the converter is the two group conversions in sequence. *)
Lemma convertGPSCoordinates_groups (latLong : string)
    (d1 x1 m1 s1 l1 d2 x2 m2 s2 l2 : string) (c1 c2 c3 c4 c5 : ascii) :
  Go.Split latLong " "%char =
    [d1; x1; Stated.snoc m1 c1; Stated.snoc s1 c2; Stated.snoc l1 c3;
     d2; x2; Stated.snoc m2 c4; Stated.snoc s2 c5; l2] ->
  convertGPSCoordinates latLong =
    match degMinSecToDecimal d1 m1 s1 l1 with
    | Panic p => Panic p
    | Err e => Err ("error while converting latitude (" ++ latLong ++ "): " ++ e)
    | Ok lat =>
        match degMinSecToDecimal d2 m2 s2 l2 with
        | Panic p => Panic p
        | Err e => Err ("error while converting longitude (" ++ latLong ++ "): " ++ e)
        | Ok long => Ok (lat, long)
        end
    end.
Proof.
  intros H. unfold convertGPSCoordinates. rewrite H. cbn [length Nat.eqb negb nth].
  rewrite !skipLastChar_snoc. cbn [mbind result_mbind result_bind].
  destruct (degMinSecToDecimal d1 m1 s1 l1); reflexivity.
Qed.

End GPSFacts.

Section GPSClaims.
Context `{FL : FloatLib}.
Import Legacy.

(** C3 (as amended). For every position string that splits on single
    spaces into exactly ten tokens, where tokens 0 and 5 parse as floats,
    tokens 2, 3, 7 and 8 parse as floats once their last byte (the unit
    mark) is removed, token 4 is a hemisphere letter once its last byte
    (the comma) is removed and token 9 is a hemisphere letter,
    [convertGPSCoordinates] returns the latitude and the longitude
    [degrees + minutes/60 + seconds/3600], negated for S and W, computed in
    [float64] and stored as [float32]. *)
Theorem convertGPSCoordinates_decimal (latLong : string)
    (d1 x1 m1 s1 l1 d2 x2 m2 s2 l2 : string) (c1 c2 c3 c4 c5 : ascii)
    (fd1 fm1 fs1 fd2 fm2 fs2 : float64) (sg1 sg2 : Z) :
  Go.Split latLong " "%char =
    [d1; x1; Stated.snoc m1 c1; Stated.snoc s1 c2; Stated.snoc l1 c3;
     d2; x2; Stated.snoc m2 c4; Stated.snoc s2 c5; l2] ->
  ParseFloat32 d1 = Some fd1 -> ParseFloat32 m1 = Some fm1 ->
  ParseFloat32 s1 = Some fs1 -> Stated.sign l1 = Some sg1 ->
  ParseFloat32 d2 = Some fd2 -> ParseFloat32 m2 = Some fm2 ->
  ParseFloat32 s2 = Some fs2 -> Stated.sign l2 = Some sg2 ->
  convertGPSCoordinates latLong =
    Ok (Stated.decimal fd1 fm1 fs1 sg1, Stated.decimal fd2 fm2 fs2 sg2).
Proof.
  intros Hsplit Hd1 Hm1 Hs1 Hl1 Hd2 Hm2 Hs2 Hl2.
  rewrite (convertGPSCoordinates_groups _ _ _ _ _ _ _ _ _ _ _ _ _ _ _ _ Hsplit).
  rewrite (degMinSecToDecimal_decimal _ _ _ _ _ _ _ _ Hd1 Hm1 Hs1 Hl1).
  rewrite (degMinSecToDecimal_decimal _ _ _ _ _ _ _ _ Hd2 Hm2 Hs2 Hl2).
  reflexivity.
Qed.

(** With ten tokens whose third, fourth, fifth, eighth and ninth are not
    empty, the converter never panics, and it returns an error as soon as a
    number does not parse or a hemisphere marker is not one of N, S, E, W. *)
Lemma convertGPSCoordinates_format_error (latLong : string)
    (d1 x1 m1 s1 l1 d2 x2 m2 s2 l2 : string) (c1 c2 c3 c4 c5 : ascii) :
  Go.Split latLong " "%char =
    [d1; x1; Stated.snoc m1 c1; Stated.snoc s1 c2; Stated.snoc l1 c3;
     d2; x2; Stated.snoc m2 c4; Stated.snoc s2 c5; l2] ->
  ParseFloat32 d1 = None \/ ParseFloat32 m1 = None \/ ParseFloat32 s1 = None \/
  Stated.sign l1 = None \/
  ParseFloat32 d2 = None \/ ParseFloat32 m2 = None \/ ParseFloat32 s2 = None \/
  Stated.sign l2 = None ->
  is_Err (convertGPSCoordinates latLong) = true.
Proof.
  intros Hsplit Hbad.
  rewrite (convertGPSCoordinates_groups _ _ _ _ _ _ _ _ _ _ _ _ _ _ _ _ Hsplit).
  pose proof (degMinSecToDecimal_no_panic d1 m1 s1 l1) as Hp1.
  pose proof (degMinSecToDecimal_no_panic d2 m2 s2 l2) as Hp2.
  pose proof (degMinSecToDecimal_error d1 m1 s1 l1) as He1.
  pose proof (degMinSecToDecimal_error d2 m2 s2 l2) as He2.
  destruct (degMinSecToDecimal d1 m1 s1 l1) as [lat|e|p]; [|reflexivity|discriminate].
  destruct (degMinSecToDecimal d2 m2 s2 l2) as [long|e|p]; [|reflexivity|discriminate].
  simpl in *. destruct Hbad as [H|[H|[H|[H|Hbad]]]];
    try (specialize (He1 ltac:(tauto)); discriminate).
  specialize (He2 ltac:(tauto)). discriminate.
Qed.

(** With ten tokens of which the third, the fourth or the fifth is empty,
    the converter panics before it parses anything. *)
Lemma convertGPSCoordinates_empty_latitude_token (latLong : string) :
  length (Go.Split latLong " "%char) = 10%nat ->
  nth 2 (Go.Split latLong " "%char) EmptyString = EmptyString \/
  nth 3 (Go.Split latLong " "%char) EmptyString = EmptyString \/
  nth 4 (Go.Split latLong " "%char) EmptyString = EmptyString ->
  is_Panic (convertGPSCoordinates latLong) = true.
Proof.
  intros Hlen Hempty. unfold convertGPSCoordinates. rewrite Hlen.
  cbn [Nat.eqb negb]. cbv zeta.
  set (sub := Go.Split latLong " "%char) in *.
  destruct (nth 2 sub EmptyString) as [|a2 t2] eqn:E2; [reflexivity|].
  destruct (nth 3 sub EmptyString) as [|a3 t3] eqn:E3; [reflexivity|].
  destruct (nth 4 sub EmptyString) as [|a4 t4] eqn:E4; [reflexivity|].
  destruct Hempty as [H|[H|H]]; discriminate.
Qed.

(** The position without a comma is rejected whatever the float library:
    the hemisphere token [N] loses its only byte. *)
Lemma convertGPSCoordinates_no_comma_any_runtime :
  is_Err (convertGPSCoordinates Sample.parisNoComma) = true.
Proof.
  assert (Hs : Go.Split Sample.parisNoComma " "%char =
    ["48"; "deg"; Stated.snoc "51" "'"%char; Stated.snoc "29.00" (ascii_of_nat 34);
     Stated.snoc "" "N"%char; "2"; "deg"; Stated.snoc "17" "'"%char;
     Stated.snoc "40.00" (ascii_of_nat 34); "E"]) by (vm_compute; reflexivity).
  apply (convertGPSCoordinates_format_error _ _ _ _ _ _ _ _ _ _ _ _ _ _ _ _ Hs).
  do 3 right. left. reflexivity.
Qed.

End GPSClaims.

(** The sample position converts to about 48.858 and 2.294. *)
Lemma convertGPSCoordinates_decimal_paris :
  exists lat long,
    Legacy.convertGPSCoordinates (FL := Reference.floats) Sample.paris = Ok (lat, long)
    /\ Reference.between 48858 48859 1000 lat = true
    /\ Reference.between 2294 2295 1000 long = true.
Proof.
  eexists. eexists. split.
  - apply (convertGPSCoordinates_decimal (FL := Reference.floats) Sample.paris
             "48" "deg" "51" "29.00" "N" "2" "deg" "17" "40.00" "E"
             "'"%char (ascii_of_nat 34) ","%char "'"%char (ascii_of_nat 34));
      vm_compute; reflexivity.
  - split; vm_compute; reflexivity.
Defined.

(** C3, as stated, fails: the ten-token position without a comma, whose
    numbers are well formed and whose hemisphere tokens are [N] and [E], is
    rejected with a format error. *)
Lemma convertGPSCoordinates_no_comma_rejected :
  Go.Split Sample.parisNoComma " "%char =
    ["48"; "deg"; "51'"; "29.00" ++ Go.dquote; "N";
     "2"; "deg"; "17'"; "40.00" ++ Go.dquote; "E"]
  /\ Legacy.convertGPSCoordinates (FL := Reference.floats) Sample.parisNoComma =
       Err ("error while converting latitude (" ++ Sample.parisNoComma
            ++ "): Unsupported letter ()").
Proof. split; vm_compute; reflexivity. Qed.

(** C5 fails on the code: ten tokens with an empty minutes token, which does
    not parse as a number, make [convertGPSCoordinates] panic instead of
    returning a format error. *)
Theorem convertGPSCoordinates_empty_minutes_panics :
  length (Go.Split Sample.emptyMinutes " "%char) = 10%nat
  /\ nth 2 (Go.Split Sample.emptyMinutes " "%char) EmptyString = EmptyString
  /\ ParseFloat32 (FloatLib := Reference.floats) EmptyString = None
  /\ Legacy.convertGPSCoordinates (FL := Reference.floats) Sample.emptyMinutes =
       Panic "runtime error: slice bounds out of range [:-1]".
Proof. repeat split; vm_compute; reflexivity. Qed.

(** C9. For each of the indices 2, 3, 4, 7 and 8 there is a string of ten
    tokens whose token at that index is empty and on which
    [convertGPSCoordinates] panics in [skipLastChar]; and [skipLastChar]
    panics on the empty string and on no other. *)
Theorem skipLastChar_panic_reaches_convertGPSCoordinates :
  Forall (fun i =>
            length (Go.Split (Sample.emptyAt i) " "%char) = 10%nat
            /\ nth i (Go.Split (Sample.emptyAt i) " "%char) EmptyString = EmptyString
            /\ Legacy.convertGPSCoordinates (FL := Reference.floats) (Sample.emptyAt i) =
                 Panic "runtime error: slice bounds out of range [:-1]")
         [2; 3; 4; 7; 8]%nat
  /\ forall src, is_Panic (Legacy.skipLastChar src) = true <-> src = EmptyString.
Proof.
  split.
  - repeat constructor; vm_compute; reflexivity.
  - apply skipLastChar_panics_iff.
Qed.

(** ** The field decoders *)

Section DecoderFacts.
Context `{FL : FloatLib} `{TL : TimeLib}.
Import Legacy.
Local Abbreviation value := (value float64).
Local Abbreviation FileMetadata := (FileMetadata float64).
Local Abbreviation Model := (Model float64).

(** A missing key is absent for every decoder; none panics on it. *)
Lemma decoders_missing_key (m : FileMetadata) (k : string) :
  Fields m !! k = None ->
  getFloat m k = Ok None /\ getString m k = None
  /\ getUint64FromFloat64 m k = Ok None.
Proof. intros H. unfold getFloat, getString, getUint64FromFloat64. now rewrite H. Qed.

Lemma decodeKeywords_missing (m : FileMetadata) :
  Fields m !! KEYWORDS_KEY = None -> decodeKeywords m = Ok None.
Proof. intros H. unfold decodeKeywords. now rewrite H. Qed.

(** [getFloat] and [getUint64FromFloat64] return the number under a key
    holding a [float64], and panic on a value of any other type. *)
Lemma getFloat_present (m : FileMetadata) (k : string) (v : value) :
  Fields m !! k = Some v ->
  getFloat m k = match v with
                 | VFloat f => Ok (Some f)
                 | _ => assertPanic v "float64"
                 end.
Proof. intros H. unfold getFloat. rewrite H. destruct v; reflexivity. Qed.

Lemma getUint64FromFloat64_present (m : FileMetadata) (k : string) (v : value) :
  Fields m !! k = Some v ->
  getUint64FromFloat64 m k = match v with
                             | VFloat f => Ok (Some (f64_to_u64 f))
                             | _ => assertPanic v "float64"
                             end.
Proof. intros H. unfold getUint64FromFloat64. rewrite H. destruct v; reflexivity. Qed.

(** The keyword decode takes a single string as a one-element list, leaves
    the list absent for a value that is neither a slice nor a string, and
    copies a slice of strings. *)
Lemma decodeKeywords_scalar (m : FileMetadata) (str : string) :
  Fields m !! KEYWORDS_KEY = Some (VString str) -> decodeKeywords m = Ok (Some [str]).
Proof. intros H. unfold decodeKeywords. now rewrite H. Qed.

Lemma decodeKeywords_other (m : FileMetadata) (v : value) :
  Fields m !! KEYWORDS_KEY = Some v ->
  match v with VSlice _ | VString _ => False | _ => True end ->
  decodeKeywords m = Ok None.
Proof. intros H Hv. unfold decodeKeywords. rewrite H. destruct v; tauto. Qed.

Lemma keywordsOfSlice_strings (l : list string) :
  keywordsOfSlice (map VString l) = Ok l.
Proof.
  induction l as [|s l IH]; simpl; [reflexivity|].
  rewrite IH. reflexivity.
Qed.

(** No decoder ahead of the date step returns an error: each returns a
    value or panics. *)
Lemma getFloat_no_error (m : FileMetadata) (k : string) : is_Err (getFloat m k) = false.
Proof. unfold getFloat. destruct (Fields m !! k) as [[]|]; reflexivity. Qed.

Lemma getUint64FromFloat64_no_error (m : FileMetadata) (k : string) :
  is_Err (getUint64FromFloat64 m k) = false.
Proof. unfold getUint64FromFloat64. destruct (Fields m !! k) as [[]|]; reflexivity. Qed.

Lemma keywordsOfSlice_no_error (l : list value) : is_Err (keywordsOfSlice l) = false.
Proof.
  induction l as [|v l IH]; simpl; [reflexivity|].
  destruct v; try reflexivity. simpl.
  destruct (keywordsOfSlice l); simpl in *; congruence.
Qed.

Lemma decodeKeywords_no_error (m : FileMetadata) : is_Err (decodeKeywords m) = false.
Proof.
  unfold decodeKeywords. destruct (Fields m !! KEYWORDS_KEY) as [[]|]; try reflexivity.
  pose proof (keywordsOfSlice_no_error l) as H.
  destruct (keywordsOfSlice l); simpl in *; congruence.
Qed.

(** The errors of the date and GPS steps begin with the byte [e]. *)
Lemma decodeDate_error (m : FileMetadata) (e : string) :
  decodeDate m = Err e -> exists e', e = String "e" e'.
Proof.
  unfold decodeDate. destruct (Fields m !! CAPTUREDATE_KEY) as [[]|]; try discriminate.
  simpl. destruct (time_Parse SRC_DATE_FORMAT s); [discriminate|].
  intros [= <-]. eexists. reflexivity.
Qed.

Lemma decodeGPS_error (m : FileMetadata) (e : string) :
  decodeGPS m = Err e -> exists e', e = String "e" e'.
Proof.
  unfold decodeGPS. destruct (Fields m !! GPS_KEY) as [[]|]; try discriminate.
  simpl. destruct (convertGPSCoordinates s) as [[lat long]|e0|p]; try discriminate.
  intros [= <-]. eexists. reflexivity.
Qed.

(** With exactly one metadata record, an error of [convert] comes from the
    date step or the GPS step. *)
Lemma convertMetas_one_error (sep : ascii) (meta : FileMetadata) (f : string)
    (fInfo : FileInfo) (e : string) :
  convertMetas sep [meta] f fInfo = Err e -> exists e', e = String "e" e'.
Proof.
  unfold convertMetas. cbn [length Nat.eqb negb nth].
  pose proof (getFloat_no_error meta APERTURE_KEY) as H1.
  pose proof (getUint64FromFloat64_no_error meta HEIGHT_KEY) as H2.
  pose proof (getUint64FromFloat64_no_error meta WIDTH_KEY) as H3.
  pose proof (decodeKeywords_no_error meta) as H4.
  destruct (getFloat meta APERTURE_KEY); simpl in *; try congruence.
  destruct (getUint64FromFloat64 meta HEIGHT_KEY); simpl in *; try congruence.
  destruct (getUint64FromFloat64 meta WIDTH_KEY); simpl in *; try congruence.
  destruct (decodeKeywords meta); simpl in *; try congruence.
  destruct (decodeDate meta) eqn:Hd; simpl in *; try congruence.
  - destruct (decodeGPS meta) eqn:Hg; simpl in *; try congruence.
    intros [= <-]. eapply decodeGPS_error; eauto.
  - intros [= <-]. eapply decodeDate_error; eauto.
Qed.

(** C6. With exactly one metadata record whose capture-date key holds a
    string, and the decoders ahead of the date step returning: when the
    string parses in the source layout and the GPS step returns, [convert]
    returns a record whose date is the decimal rendering of the epoch
    seconds times 1000; when the string does not parse, [convert] returns
    the date error. *)
Theorem convert_capture_date (sep : ascii) (meta : FileMetadata) (f : string)
    (fInfo : FileInfo) (s : string) (a : option float64) (h w : option Z)
    (k : option (list string)) :
  Fields meta !! CAPTUREDATE_KEY = Some (VString s) ->
  getFloat meta APERTURE_KEY = Ok a ->
  getUint64FromFloat64 meta HEIGHT_KEY = Ok h ->
  getUint64FromFloat64 meta WIDTH_KEY = Ok w ->
  decodeKeywords meta = Ok k ->
  (forall d g, time_Parse SRC_DATE_FORMAT s = inl d -> decodeGPS meta = Ok g ->
     exists pic, convertMetas sep [meta] f fInfo = Ok pic
                 /\ Date pic = Some (Go.FormatInt (Go.wrap64 (time_Unix d * 1000))))
  /\ (forall err, time_Parse SRC_DATE_FORMAT s = inr err ->
        convertMetas sep [meta] f fInfo =
          Err ("error while parsing date (" ++ s ++ "): " ++ err)).
Proof.
  intros Hs Ha Hh Hw Hk. unfold convertMetas. cbn [length Nat.eqb negb nth].
  rewrite Ha, Hh, Hw, Hk. unfold decodeDate. rewrite Hs. simpl. split.
  - intros d g Hd Hg. rewrite Hd, Hg. simpl. eexists. split; reflexivity.
  - intros err Hd. rewrite Hd. reflexivity.
Qed.

(** The date of a returned record, without any side condition. *)
Lemma convert_capture_date_of_result (sep : ascii) (meta : FileMetadata) (f : string)
    (fInfo : FileInfo) (s : string) (pic : Model) :
  Fields meta !! CAPTUREDATE_KEY = Some (VString s) ->
  convertMetas sep [meta] f fInfo = Ok pic ->
  exists d, time_Parse SRC_DATE_FORMAT s = inl d
            /\ Date pic = Some (Go.FormatInt (Go.wrap64 (time_Unix d * 1000))).
Proof.
  intros Hs. unfold convertMetas. cbn [length Nat.eqb negb nth].
  destruct (getFloat meta APERTURE_KEY); simpl; try discriminate.
  destruct (getUint64FromFloat64 meta HEIGHT_KEY); simpl; try discriminate.
  destruct (getUint64FromFloat64 meta WIDTH_KEY); simpl; try discriminate.
  destruct (decodeKeywords meta); simpl; try discriminate.
  unfold decodeDate. rewrite Hs. simpl.
  destruct (time_Parse SRC_DATE_FORMAT s) as [d|err]; simpl; try discriminate.
  destruct (decodeGPS meta); simpl; try discriminate.
  intros [= <-]. exists d. split; reflexivity.
Qed.

(** C7, legacy converter. [convert] returns the metadata-count error
    exactly when the extractor returned a number of records other than one. *)
Lemma convertMetas_count (sep : ascii) (metas : list FileMetadata) (f : string)
    (fInfo : FileInfo) :
  convertMetas sep metas f fInfo =
    Err ("wrong metadata count (" ++ Go.FormatInt (Z.of_nat (length metas)) ++ ")")
  <-> length metas <> 1%nat.
Proof.
  split.
  - intros H Hlen. destruct metas as [|meta [|]]; try discriminate.
    apply convertMetas_one_error in H. destruct H as [e' H]. discriminate.
  - intros H. unfold convertMetas.
    destruct (Nat.eqb_spec (length metas) 1); [contradiction|reflexivity].
Qed.

End DecoderFacts.

(** C4 fails on the code: a string under the aperture key, a string under
    the height key and a number among the keywords each make the decoder
    panic, and the panic leaves [convert] without a result. *)
Theorem decoders_panic_on_type_mismatch :
  Legacy.getFloat (FL := Reference.floats) Sample.stringAperture Legacy.APERTURE_KEY =
    Panic "interface conversion: interface {} is string, not float64"
  /\ Legacy.getUint64FromFloat64 (FL := Reference.floats) Sample.stringHeight
       Legacy.HEIGHT_KEY =
    Panic "interface conversion: interface {} is string, not float64"
  /\ Legacy.decodeKeywords (FL := Reference.floats) Sample.mixedKeywords =
    Panic "interface conversion: interface {} is float64, not string"
  /\ Legacy.convertMetas (FL := Reference.floats) (TL := Reference.times)
       "/" [Sample.stringAperture] "album/a.jpg" (Sample.aFile "a.jpg") =
    Panic "interface conversion: interface {} is string, not float64".
Proof. repeat split; vm_compute; reflexivity. Qed.

(** The sample date converts to 1615804200000. *)
Lemma convert_capture_date_sample :
  exists pic,
    Legacy.convertMetas (FL := Reference.floats) (TL := Reference.times)
      "/" [Sample.dated] "holiday/a.jpg" (Sample.aFile "a.jpg") = Ok pic
    /\ Legacy.Date pic = Some "1615804200000".
Proof.
  destruct (convert_capture_date (FL := Reference.floats) (TL := Reference.times)
              "/"%char Sample.dated "holiday/a.jpg" (Sample.aFile "a.jpg")
              "2021:03:15 10:30:00" None None None None
              ltac:(vm_compute; reflexivity) ltac:(vm_compute; reflexivity)
              ltac:(vm_compute; reflexivity) ltac:(vm_compute; reflexivity)
              ltac:(vm_compute; reflexivity)) as [Hok _].
  exact (Hok {| Reference.year := 2021; Reference.month := 3; Reference.day := 15;
                Reference.hour := 10; Reference.minute := 30; Reference.second := 0 |}
             None ltac:(vm_compute; reflexivity) ltac:(vm_compute; reflexivity)).
Defined.

(** A date that does not follow the layout fails the conversion. *)
Lemma convert_capture_date_malformed :
  is_Err (Legacy.convertMetas (FL := Reference.floats) (TL := Reference.times)
            "/" [Sample.badDate] "holiday/a.jpg" (Sample.aFile "a.jpg")) = true.
Proof. vm_compute. reflexivity. Qed.

(** ** The record converter of the concurrent indexer, and the push *)

Section MetadataFacts.
Variables (meta context importID float64p int64p stringp stringsp datep gpsp : Type).
Variable ExtractMetadata : string -> list meta.
Variable noMeta : meta.
Variable GetImportID : context -> importID.
Variable getFloat64 : meta -> string -> float64p.
Variable getInt64 : meta -> string -> int64p.
Variable getString : meta -> string -> stringp.
Variable getStrings : meta -> string -> stringsp.
Variable getDate : meta -> string -> datep.
Variable getGPS : meta -> string -> gpsp.
Variable PathSeparator : ascii.

Let convert :=
  Metadata.convert meta context importID float64p int64p stringp stringsp datep gpsp
    ExtractMetadata noMeta GetImportID getFloat64 getInt64 getString getStrings
    getDate getGPS PathSeparator.

(** Any count other than one is the metadata-count error. *)
Lemma convert_wrong_count (ctx : context) (f : string) (fInfo : FileInfo) :
  length (ExtractMetadata f) <> 1%nat ->
  convert ctx f fInfo =
    Err ("wrong metadata count ("
         ++ Go.FormatInt (Z.of_nat (length (ExtractMetadata f))) ++ ")").
Proof.
  intros H. unfold convert, Metadata.convert.
  destruct (Nat.eqb_spec (length (ExtractMetadata f)) 1); [contradiction|reflexivity].
Qed.

(** With exactly one record the converter returns a record. *)
Lemma convert_one_record (ctx : context) (f : string) (fInfo : FileInfo) :
  length (ExtractMetadata f) = 1%nat -> is_Ok (convert ctx f fInfo) = true.
Proof.
  intros H. unfold convert, Metadata.convert. rewrite H. reflexivity.
Qed.
End MetadataFacts.

(** C7. Both converters return the metadata-count error exactly when the
    extractor returned a number of records other than one; with exactly one
    record the converter of the concurrent indexer returns a record, and the
    legacy converter goes on to the decoders. *)
Theorem convert_requires_one_record :
  (forall (FL : FloatLib) (TL : TimeLib) (sep : ascii)
          (metas : list (Legacy.FileMetadata float64)) (f : string) (fInfo : FileInfo),
      Legacy.convertMetas sep metas f fInfo =
        Err ("wrong metadata count (" ++ Go.FormatInt (Z.of_nat (length metas)) ++ ")")
      <-> length metas <> 1%nat)
  /\ (forall (meta context importID float64p int64p stringp stringsp datep gpsp : Type)
             (ExtractMetadata : string -> list meta) (noMeta : meta)
             (GetImportID : context -> importID)
             (getFloat64 : meta -> string -> float64p)
             (getInt64 : meta -> string -> int64p)
             (getString : meta -> string -> stringp)
             (getStrings : meta -> string -> stringsp)
             (getDate : meta -> string -> datep)
             (getGPS : meta -> string -> gpsp)
             (sep : ascii) (ctx : context) (f : string) (fInfo : FileInfo),
        let r := Metadata.convert meta context importID float64p int64p stringp
                   stringsp datep gpsp ExtractMetadata noMeta GetImportID getFloat64
                   getInt64 getString getStrings getDate getGPS sep ctx f fInfo in
        (length (ExtractMetadata f) <> 1%nat <->
           r = Err ("wrong metadata count ("
                    ++ Go.FormatInt (Z.of_nat (length (ExtractMetadata f))) ++ ")"))
        /\ (length (ExtractMetadata f) = 1%nat <-> is_Ok r = true)).
Proof.
  split.
  - intros. apply convertMetas_count.
  - intros. subst r. split; split.
    + apply convert_wrong_count.
    + intros Herr Hone.
      pose proof (convert_one_record meta context importID float64p int64p stringp
                    stringsp datep gpsp ExtractMetadata noMeta GetImportID getFloat64
                    getInt64 getString getStrings getDate getGPS sep ctx f fInfo Hone) as Hok.
      rewrite Herr in Hok. discriminate.
    + apply convert_one_record.
    + intros Hok. destruct (Nat.eq_dec (length (ExtractMetadata f)) 1%nat) as [|Hne]; [assumption|].
      rewrite (convert_wrong_count meta context importID float64p int64p stringp
                 stringsp datep gpsp ExtractMetadata noMeta GetImportID getFloat64
                 getInt64 getString getStrings getDate getGPS sep ctx f fInfo Hne) in Hok.
      discriminate.
Qed.

Section PushFacts.
Variable URL : Type.
Variable url_Parse : string -> URL + string.
Variable URL_Path : URL -> string.
Variable URL_withPath : URL -> string -> URL.
Variable URL_String : URL -> string.
Variable path_Join : string -> string -> string.
Variable http_Do : Metadata.Request -> Metadata.Response + string.

Let Push := Metadata.Push URL url_Parse URL_Path URL_withPath URL_String path_Join http_Do.

Let bulkRequest := Metadata.bulkRequest URL URL_Path URL_withPath URL_String path_Join.

(** C8. [Push] sends nothing when the URL does not parse and otherwise one
    POST of the buffer to the URL whose path is joined with [_bulk], with
    content type [application/x-ndjson]; it returns nil exactly when the
    URL parses, the transport yields a response and its status code is in
    [[200, 300)]; and the error for any other status code reports the code. *)
Theorem Push_error_iff (idxer : Metadata.Indexer) (buffer : string) :
  (snd (Push idxer buffer) = None <->
     exists u resp, url_Parse (Metadata.Url (Metadata.conf idxer)) = inl u
                    /\ http_Do (bulkRequest u buffer) = inl resp
                    /\ 200 <= Metadata.StatusCode resp < 300)
  /\ fst (Push idxer buffer) =
       match url_Parse (Metadata.Url (Metadata.conf idxer)) with
       | inl u => [bulkRequest u buffer]
       | inr _ => []
       end
  /\ (forall u,
        Metadata.method (bulkRequest u buffer) = "POST"
        /\ Metadata.target (bulkRequest u buffer) =
             URL_String (URL_withPath u (path_Join (URL_Path u) "_bulk"))
        /\ Metadata.contentType (bulkRequest u buffer) = "application/x-ndjson"
        /\ Metadata.body (bulkRequest u buffer) = buffer)
  /\ (forall u resp,
        url_Parse (Metadata.Url (Metadata.conf idxer)) = inl u ->
        http_Do (bulkRequest u buffer) = inl resp ->
        ~ 200 <= Metadata.StatusCode resp < 300 ->
        snd (Push idxer buffer) =
          Some ("Wrong status code ("
                ++ Go.FormatInt (Metadata.StatusCode resp) ++ ")")).
Proof.
  unfold Push, Metadata.Push.
  fold bulkRequest.
  assert (Hreq : forall u,
             Metadata.method (bulkRequest u buffer) = "POST"
             /\ Metadata.target (bulkRequest u buffer) =
                  URL_String (URL_withPath u (path_Join (URL_Path u) "_bulk"))
             /\ Metadata.contentType (bulkRequest u buffer) = "application/x-ndjson"
             /\ Metadata.body (bulkRequest u buffer) = buffer)
    by (intros u; repeat split; reflexivity).
  destruct (url_Parse (Metadata.Url (Metadata.conf idxer))) as [u|perr] eqn:Hparse.
  - destruct (http_Do (bulkRequest u buffer)) as [resp|terr] eqn:Hdo.
    + destruct (Z.ltb_spec (Metadata.StatusCode resp) 200) as [Hlo|Hlo];
        [|destruct (Z.leb_spec 300 (Metadata.StatusCode resp)) as [Hhi|Hhi]];
        cbn [orb fst snd]; (split; [split|split; [|split]]);
        try reflexivity; try discriminate; try exact Hreq.
      * intros (u' & resp' & [= <-] & Hr' & Hr).
        rewrite Hdo in Hr'. injection Hr' as <-. lia.
      * intros u' resp' [= <-] Hr' Hr. rewrite Hdo in Hr'. injection Hr' as <-.
        reflexivity.
      * intros (u' & resp' & [= <-] & Hr' & Hr).
        rewrite Hdo in Hr'. injection Hr' as <-. lia.
      * intros u' resp' [= <-] Hr' Hr. rewrite Hdo in Hr'. injection Hr' as <-.
        reflexivity.
      * intros _. exists u, resp. split; [reflexivity|]. split; [exact Hdo|lia].
      * intros u' resp' [= <-] Hr' Hr. rewrite Hdo in Hr'. injection Hr' as <-. lia.
    + cbn [fst snd]. split; [split|split; [|split]];
        try reflexivity; try discriminate; try exact Hreq.
      * intros (u' & resp' & [= <-] & Hr & _). rewrite Hdo in Hr. discriminate.
      * intros u' resp' [= <-] Hr. rewrite Hdo in Hr. discriminate.
  - cbn [fst snd]. split; [split|split; [|split]];
      try reflexivity; try discriminate; try exact Hreq.
    intros (u' & resp' & Hr & _). discriminate.
Qed.

End PushFacts.

(** ** The legacy directory operation *)

Section IndexFacts.
Context `{FL : FloatLib} `{TL : TimeLib}.
Variable ExtractMetadata : string -> list (Legacy.FileMetadata float64).
Variable PathSeparator : ascii.
Variable json_Encode : Legacy.Model float64 -> string + string.
Import Legacy.

Let convert := Legacy.convert ExtractMetadata PathSeparator.
Let indexFile := Legacy.indexFile json_Encode.
Let walkIndex := Legacy.walkIndex ExtractMetadata PathSeparator json_Encode.
Let Index := Legacy.Index ExtractMetadata PathSeparator json_Encode.
Let imageLines := Legacy.imageLines ExtractMetadata PathSeparator json_Encode.





End IndexFacts.

(** On the sample album only the picture is written; the file without
    metadata is logged and the document is passed over, and [Index] returns
    nil. With an unreadable entry the traversal error is returned. *)
Lemma Index_album :
  Legacy.Index (FL := Reference.floats) (TL := Reference.times)
      Sample.extract "/" Sample.encode Sample.album =
    (Ok tt,
     {| Legacy.stdout := [Legacy.ES_BULK_LINE_HEADER; "{sea.jpg}"];
        Legacy.logged := ["album/broken.bin"; "album/broken.bin: wrong metadata count (0)";
                          "album/notes.pdf"; "album/sea.jpg"] |})
  /\ fst (Legacy.Index (FL := Reference.floats) (TL := Reference.times)
            Sample.extract "/" Sample.encode Sample.unreadable) =
       Err "error while browsing directory: open album/private: permission denied".
Proof. split; vm_compute; reflexivity. Qed.

(** ** The pipeline of [Dump] *)

Section PipelineFacts.
Variables (Model header : Type).
Variable convert : string -> FileInfo -> result Model.
Variable getBulkEntryHeader : string -> Model -> result header.
Variable Encode_header : header -> string + string.
Variable Encode_pic : Model -> string + string.
Import Pipeline.

Local Abbreviation state := (Pipeline.state Model header).
Local Abbreviation worker_pc := (Pipeline.worker_pc Model header).
Let stepMain := Pipeline.stepMain Model header.
Let stepEmitter := Pipeline.stepEmitter Model header Encode_header Encode_pic.
Let stepCoord := Pipeline.stepCoord Model header.
Let stepWorker := Pipeline.stepWorker Model header convert getBulkEntryHeader.
Let step := Pipeline.step Model header convert getBulkEntryHeader Encode_header Encode_pic.
Let run := Pipeline.run Model header convert getBulkEntryHeader Encode_header Encode_pic.
Let init := Pipeline.init Model header.

(** Case analysis on a step that was taken: every test of the step
    function is decided and the resulting state is substituted. *)
Ltac taken H :=
  repeat match type of H with
         | context [match ?x with _ => _ end] => destruct x eqn:?
         end;
  try discriminate H;
  try (injection H as <-).

Ltac unfold_steps H :=
  unfold step, Pipeline.step, stepMain, Pipeline.stepMain, stepEmitter,
    Pipeline.stepEmitter, stepCoord, Pipeline.stepCoord, stepWorker,
    Pipeline.stepWorker in H.

(** *** Workers that have not finished *)

Lemma active_replicate (n : nat) : active (replicate n (@WRecv Model header)) = n.
Proof. induction n as [|n IH]; simpl; [reflexivity|]. now rewrite IH. Qed.

Lemma active_insert (ws : list worker_pc) (i : nat) (w w' : worker_pc) :
  ws !! i = Some w ->
  (active (<[i := w']> ws) + (if workerDone w then 0 else 1)
   = active ws + (if workerDone w' then 0 else 1))%nat.
Proof.
  revert i. induction ws as [|x ws IH]; intros [|i] H; try discriminate.
  - injection H as ->. simpl. lia.
  - simpl in *. specialize (IH i H). lia.
Qed.

Lemma active_zero_done (ws : list worker_pc) :
  active ws = 0%nat <-> forallb workerDone ws = true.
Proof.
  induction ws as [|w ws IH]; simpl; [tauto|].
  destruct (workerDone w); simpl; [exact IH|]. split; [lia|discriminate].
Qed.

Lemma active_zero_lookup (ws : list worker_pc) (i : nat) (w : worker_pc) :
  active ws = 0%nat -> ws !! i = Some w -> w = WDone.
Proof.
  revert i. induction ws as [|x ws IH]; intros [|i] H0 H; try discriminate.
  - injection H as ->. simpl in H0. destruct w; simpl in H0; try lia. reflexivity.
  - simpl in *. apply (IH i); [lia|assumption].
Qed.

(** *** The value [Dump] returns *)

Lemma step_carries (e : option string) (s s' : state) (a : action) :
  step s a = Some s' -> carries e s -> carries e s'.
Proof.
  intros H Hc. unfold carries in *. destruct a; unfold_steps H; taken H;
    cbn in *; subst; try congruence; try assumption;
    repeat match goal with
           | |- context [if ?b then _ else _] => destruct b
           end; cbn; try congruence; try assumption;
    match goal with
    | E : mainT ?s = _ |- context [mainT ?s] => rewrite E; reflexivity
    end.
Qed.

Lemma run_carries (e : option string) (acts : list action) :
  forall s s', run acts s = Some s' -> carries e s -> carries e s'.
Proof.
  induction acts as [|a acts IH]; intros s s' H Hc.
  - injection H as <-. exact Hc.
  - cbn in H. fold step in H. destruct (step s a) as [s1|] eqn:Hs; [|discriminate].
    apply (IH s1 s' H). exact (step_carries e s s1 a Hs Hc).
Qed.

(** C1 (as amended). Whenever [Dump] returns, the error it returns is the
    error of the directory walk, wrapped, and nil when the walk succeeded:
    a failure signalled by a worker or by the emitter cancels the context
    and is logged, and does not reach the caller. *)
Theorem Dump_returns_walk_error (idxer : Metadata.Indexer) (b : browse)
    (acts : list action) (s : state) (r : option string) :
  run acts (init idxer b) = Some s ->
  mainT s = MReturned r ->
  r = walkError b.
Proof.
  intros Hrun Hret.
  assert (Hc : carries (failure b) s).
  { apply (run_carries (failure b) acts (init idxer b) s Hrun). reflexivity. }
  unfold carries in Hc. rewrite Hret in Hc. exact Hc.
Qed.

(** *** Waiting for the goroutines *)

Lemma step_counted (s s' : state) (a : action) :
  step s a = Some s' -> counted s -> counted s'.
Proof.
  intros H (Hwg & Hw & Hret). unfold counted, allDone, emitterDone, coordDone in *.
  destruct a; unfold_steps H; taken H; cbn in *;
    repeat match goal with
           | E : emitterT s = _ |- _ => rewrite E in *; clear E
           | E : coordT s = _ |- _ => rewrite E in *; clear E
           | E : mainT s = _ |- _ => rewrite E in *; clear E
           end; cbn in *;
    try match goal with
        | E : workers s !! ?i = Some ?w |- _ =>
            pose proof (fun w' => active_insert (workers s) i w w' E) as Hins;
            pose proof (fun H0 => active_zero_lookup (workers s) i w H0 E) as Hzero
        end;
    (split; [|split]); try lia; try assumption; try congruence; try discriminate;
    intros;
    try match goal with
        | Hm : mainT s = MReturned None |- _ => specialize (Hret Hm)
        end;
    try match goal with
        | |- context [<[_ := ?w']> _] => specialize (Hins w'); cbn in Hins
        end;
    destruct (emitterT s) eqn:Ee; destruct (coordT s) eqn:Ec; cbn in *;
    rewrite ?active_replicate in *;
    try lia; try discriminate; try congruence;
    try (specialize (Hzero Hw); discriminate);
    try (apply active_zero_done in Hret; specialize (Hzero Hret); discriminate);
    try (rewrite Hw in *; discriminate);
    try (apply active_zero_done; assumption);
    try (match goal with
         | Hb : (_ =? 0)%nat = true |- _ => apply Nat.eqb_eq in Hb
         end; first [lia | exfalso; lia]).
Qed.

Lemma run_counted (acts : list action) :
  forall s s', run acts s = Some s' -> counted s -> counted s'.
Proof.
  induction acts as [|a acts IH]; intros s s' H Hc.
  - injection H as <-. exact Hc.
  - cbn in H. fold step in H. destruct (step s a) as [s1|] eqn:Hs; [|discriminate].
    apply (IH s1 s' H). exact (step_counted s s1 a Hs Hc).
Qed.

Lemma init_counted (idxer : Metadata.Indexer) (b : browse) : counted (init idxer b).
Proof. unfold counted. cbn. repeat split. discriminate. Qed.

(** On the path where the walk succeeds, [Dump] returns only after every
    goroutine it started has finished. *)
Lemma Dump_waits_when_walk_succeeds (idxer : Metadata.Indexer) (b : browse)
    (acts : list action) (s : state) :
  run acts (init idxer b) = Some s ->
  mainT s = MReturned None ->
  allDone s = true.
Proof.
  intros Hrun Hret.
  destruct (run_counted acts (init idxer b) s Hrun (init_counted idxer b)) as (_ & _ & H).
  exact (H Hret).
Qed.

End PipelineFacts.

(** On the sample run in which the only conversion fails, the theorem gives
    the nil result of [Dump]. *)
Lemma Dump_returns_walk_error_sample :
  exists s,
    Scenario.run Scenario.failingConversion (Scenario.start Scenario.oneBroken) = Some s
    /\ Pipeline.mainT s = Pipeline.MReturned None
    /\ None = Pipeline.walkError Scenario.oneBroken.
Proof.
  eexists. split; [vm_compute; reflexivity|]. split; [reflexivity|].
  eapply (Dump_returns_walk_error string string Scenario.convert
            Scenario.getBulkEntryHeader Scenario.encodeHeader Scenario.encodePic
            Scenario.idxer Scenario.oneBroken Scenario.failingConversion).
  - vm_compute. reflexivity.
  - reflexivity.
Defined.

(** C1, as stated, fails: in a run whose walk succeeds, a conversion error is
    signalled (logged, context cancelled), and [Dump] returns nil. *)
Lemma Dump_returns_nil_after_conversion_error :
  Pipeline.failure Scenario.oneBroken = None
  /\ exists s,
       Scenario.run Scenario.failingConversion (Scenario.start Scenario.oneBroken) = Some s
       /\ Pipeline.failures s = ["conversion error: wrong metadata count (0)"]
       /\ Pipeline.failed s = true
       /\ Pipeline.cancelled s = true
       /\ Pipeline.mainT s = Pipeline.MReturned None.
Proof.
  split; [reflexivity|]. eexists. split; [vm_compute; reflexivity|].
  repeat split.
Qed.

(** The same for a failure of the header builder and for a failure of the
    emitter. *)
Lemma Dump_returns_nil_after_header_or_encoding_error :
  (exists s,
      Scenario.run Scenario.failingHeader (Scenario.start Scenario.oneWithoutHeader) = Some s
      /\ Pipeline.failures s = ["error while generating header: no identifier"]
      /\ Pipeline.mainT s = Pipeline.MReturned None)
  /\ (exists s,
        Scenario.run Scenario.failingEncode (Scenario.start Scenario.oneUnwritable) = Some s
        /\ Pipeline.failures s = ["error while encoding header: short write"]
        /\ Pipeline.mainT s = Pipeline.MReturned None).
Proof.
  split; eexists; (split; [vm_compute; reflexivity|]); split; reflexivity.
Qed.

(** A run without failure writes the header line and the record line and
    returns nil after every goroutine has finished. *)
Lemma Dump_clean_run :
  exists s,
    Scenario.run Scenario.cleanRun (Scenario.start Scenario.onePicture) = Some s
    /\ Pipeline.written s = ["album/sea.jpg"; "sea.jpg"]
    /\ Pipeline.mainT s = Pipeline.MReturned None
    /\ Pipeline.allDone s = true.
Proof.
  eexists. split; [vm_compute; reflexivity|]. repeat split.
Qed.

(** C2 fails on the code: when the walk fails, [Dump] cancels and returns the
    error at once, with the counter of [wg] still at 2 and neither the
    emitter nor [startConverters] finished. *)
Theorem Dump_returns_before_goroutines_on_walk_error :
  exists s,
    Scenario.run Scenario.failingWalk (Scenario.start Scenario.missingRoot) = Some s
    /\ Pipeline.mainT s =
         Pipeline.MReturned
           (Some "error while browsing directory: lstat /missing: no such file or directory")
    /\ Pipeline.wg s = 2%nat
    /\ Pipeline.emitterT s = Pipeline.ERecv
    /\ Pipeline.coordT s = Pipeline.CStart
    /\ Pipeline.allDone s = false.
Proof.
  eexists. split; [vm_compute; reflexivity|]. repeat split.
Qed.

(** [Dump] need not return: once the only converter has left after a failed
    conversion, nothing drains the queue, and the walk waits for room for
    ever. *)
Lemma Dump_walk_can_block_for_ever :
  exists s,
    Scenario.run Scenario.abandonedWalk (Scenario.start Scenario.brokenFirst) = Some s
    /\ Pipeline.mainT s = Pipeline.MBrowse [Scenario.task "hill.jpg"] None
    /\ Pipeline.stuck string string Scenario.convert Scenario.getBulkEntryHeader
         Scenario.encodeHeader Scenario.encodePic s.
Proof.
  eexists. split; [vm_compute; reflexivity|]. split; [reflexivity|].
  intros a Ha. destruct a as [| | |i|]; try reflexivity; [|contradiction].
  destruct i as [|i]; reflexivity.
Qed.

(** ** The pipeline of [Dump]: queues, channels and counters *)

Section PipelineSafety.
Variables (Model header : Type).
Variable convert : string -> FileInfo -> result Model.
Variable getBulkEntryHeader : string -> Model -> result header.
Variable Encode_header : header -> string + string.
Variable Encode_pic : Model -> string + string.
Import Pipeline Census.

Local Abbreviation state := (Pipeline.state Model header).
Local Abbreviation worker_pc := (Pipeline.worker_pc Model header).
Local Abbreviation step :=
  (Pipeline.step Model header convert getBulkEntryHeader Encode_header Encode_pic).
Local Abbreviation run :=
  (Pipeline.run Model header convert getBulkEntryHeader Encode_header Encode_pic).
Local Abbreviation init := (Pipeline.init Model header).
Local Abbreviation tally := (Census.tally Model header).
Local Abbreviation holds := (Census.holds Model header).
Local Abbreviation gone := (Census.gone Model header).
Local Abbreviation cancelling := (Census.cancelling Model header).
Local Abbreviation leaving := (Census.leaving Model header).
Local Abbreviation sending := (Census.sending Model header).

(** Case analysis on a step that was taken. *)
Ltac decide_step H :=
  unfold Pipeline.step, Pipeline.stepMain, Pipeline.stepEmitter, Pipeline.stepCoord,
    Pipeline.stepWorker in H;
  repeat match type of H with
         | context [match ?x with _ => _ end] => destruct x eqn:?
         end;
  try discriminate H;
  try (injection H as <-).

Ltac finish :=
  first [assumption | reflexivity | exfalso; congruence | lia | exfalso; lia].

(** An invariant of every step from the initial state holds after a run. *)
Lemma run_invariant (P : state -> Prop) :
  (forall s s' a, step s a = Some s' -> P s -> P s') ->
  forall acts s s', run acts s = Some s' -> P s -> P s'.
Proof.
  intros Hstep acts. induction acts as [|a acts IH]; intros s s' H HP.
  - injection H as <-. exact HP.
  - cbn in H. destruct (step s a) as [s1|] eqn:Hs; [|discriminate].
    exact (IH s1 s' H (Hstep s s1 a Hs HP)).
Qed.

Lemma tally_insert (f : worker_pc -> nat) (ws : list worker_pc) (i : nat)
    (w w' : worker_pc) :
  ws !! i = Some w ->
  (tally f (<[i := w']> ws) + f w = tally f ws + f w')%nat.
Proof.
  revert i. induction ws as [|x ws IH]; intros [|i] H; try discriminate.
  - injection H as ->. simpl. lia.
  - simpl in *. specialize (IH i H). lia.
Qed.

Lemma tally_replicate (f : worker_pc -> nat) (n : nat) (w : worker_pc) :
  tally f (replicate n w) = (n * f w)%nat.
Proof. induction n as [|n IH]; simpl; [reflexivity|]. rewrite IH. lia. Qed.

Lemma tally_lookup (f : worker_pc -> nat) (ws : list worker_pc) (i : nat) (w : worker_pc) :
  ws !! i = Some w -> (f w <= tally f ws)%nat.
Proof.
  revert i. induction ws as [|x ws IH]; intros [|i] H; try discriminate.
  - injection H as ->. simpl. lia.
  - simpl in *. specialize (IH i H). lia.
Qed.

Lemma tally_le_active (f : worker_pc -> nat) (ws : list worker_pc) :
  (forall w, workerDone w = true -> f w = 0%nat) ->
  (forall w, f w <= 1)%nat ->
  (tally f ws <= active ws)%nat.
Proof.
  intros Hd H1. induction ws as [|w ws IH]; simpl; [lia|].
  specialize (Hd w). specialize (H1 w). destruct (workerDone w); lia.
Qed.

(** *** The queues never overflow *)

Lemma step_bounded (idxer : Metadata.Indexer) (s s' : state) (a : action) :
  step s a = Some s' -> bounded Model header idxer s -> bounded Model header idxer s'.
Proof.
  intros H (Hc1 & Hc2 & Ht & Hb1 & Hb2 & Hw). unfold bounded, hasRoom in *.
  destruct a; decide_step H; unfold hasRoom in *;
    repeat match goal with
           | E : (_ <? _)%nat = true |- _ => apply Nat.ltb_lt in E
           end; cbn in *;
    repeat match goal with
           | E : coordT s = _ |- _ => rewrite E in *
           | E : buf _ = _ |- _ => rewrite E in *
           end; cbn in *;
    rewrite ?length_app, ?length_insert, ?length_replicate in *; cbn in *;
    repeat split; try lia; try assumption;
    try (destruct (coordT s); assumption).
Qed.

Lemma init_bounded (idxer : Metadata.Indexer) (b : browse) :
  bounded Model header idxer (init idxer b).
Proof. unfold bounded. cbn. repeat split; lia. Qed.


(** *** Channels are closed after their senders *)

Lemma step_sendersThrough (s s' : state) (a : action) :
  step s a = Some s' -> sendersThrough Model header s -> sendersThrough Model header s'.
Proof.
  intros H (H1 & H2). unfold sendersThrough in *.
  destruct a; decide_step H; cbn in *;
    repeat match goal with
           | E : mainT s = _ |- _ => rewrite E in *
           | E : coordT s = _ |- _ => rewrite E in *
           end; cbn in *;
    split; intros; auto; try congruence; try tauto;
    try match goal with
        | E : closed ?c = false, E' : closed ?c = true |- _ => congruence
        end.
Qed.

Lemma init_sendersThrough (idxer : Metadata.Indexer) (b : browse) :
  sendersThrough Model header (init idxer b).
Proof. split; cbn; discriminate. Qed.

Local Abbreviation sound := (Census.sound Model header).

Lemma step_sound (s s' : state) (a : action) :
  step s a = Some s' -> sound s -> sound s'.
Proof.
  intros H [Hc Hs]. split.
  - exact (step_counted Model header convert getBulkEntryHeader Encode_header Encode_pic
             s s' a H Hc).
  - exact (step_sendersThrough s s' a H Hs).
Qed.

Lemma init_sound (idxer : Metadata.Indexer) (b : browse) : sound (init idxer b).
Proof.
  split; [apply init_counted | apply init_sendersThrough].
Qed.

Lemma run_sound (idxer : Metadata.Indexer) (b : browse) (acts : list action) (s : state) :
  run acts (init idxer b) = Some s -> sound s.
Proof.
  intros H. exact (run_invariant sound step_sound acts _ _ H (init_sound idxer b)).
Qed.

(** A step from a sound state ends the process only through a panic of
    [convert] or of [getBulkEntryHeader]. *)
Lemma step_crash (s s' : state) (a : action) (p : string) :
  step s a = Some s' -> sound s -> crashed s' = Some p ->
  (exists t, convert (path t) (info t) = Panic p)
  \/ (exists t m, getBulkEntryHeader (path t) m = Panic p).
Proof.
  intros H [(Hwg & Hw & Hret) (H1 & H2)] Hp.
  destruct a; decide_step H; cbn in *; try congruence.
  all: try (left; injection Hp as <-; eexists; eassumption).
  all: try (right; injection Hp as <-; eexists; eexists; eassumption).
  - exfalso. specialize (H1 eq_refl). discriminate.
  - exfalso.
    match goal with
    | E : workers s !! _ = Some _ |- _ =>
        specialize (H2 eq_refl);
        assert (Ha : active (workers s) = 0%nat) by (destruct (coordT s); tauto);
        pose proof (active_zero_lookup Model header (workers s) _ _ Ha E)
    end.
    discriminate.
Qed.

Lemma run_crash (acts : list action) :
  forall s s' p,
    run acts s = Some s' -> sound s -> crashed s = None -> crashed s' = Some p ->
    (exists t, convert (path t) (info t) = Panic p)
    \/ (exists t m, getBulkEntryHeader (path t) m = Panic p).
Proof.
  induction acts as [|a acts IH]; intros s s' p H Hs Hn Hp.
  - injection H as <-. congruence.
  - cbn in H. destruct (step s a) as [s1|] eqn:Hstep; [|discriminate].
    destruct (crashed s1) as [q|] eqn:Hq.
    + destruct acts as [|a' acts].
      * injection H as <-. apply (step_crash s s1 a p Hstep Hs). congruence.
      * cbn in H. unfold Pipeline.step in H. rewrite Hq in H. discriminate.
    + exact (IH s1 s' p H (step_sound s s1 a Hstep Hs) Hq Hp).
Qed.

(** X2. When neither [convert] nor [getBulkEntryHeader] panics, no run ends
    the process: no goroutine sends on a closed channel, because
    [toExtractChan] is closed after the last send of the walk and
    [toDumpChan] after every converter goroutine has finished. *)
Theorem Dump_never_sends_on_closed_channel (idxer : Metadata.Indexer) (b : browse)
    (acts : list action) (s : state) :
  (forall f fInfo, is_Panic (convert f fInfo) = false) ->
  (forall f m, is_Panic (getBulkEntryHeader f m) = false) ->
  run acts (init idxer b) = Some s ->
  crashed s = None.
Proof.
  intros Hc Hh Hrun. destruct (crashed s) as [p|] eqn:Hp; [|reflexivity]. exfalso.
  destruct (run_crash acts _ _ p Hrun (init_sound idxer b) eq_refl Hp)
    as [[t Ht]|(t & m & Ht)].
  - specialize (Hc (path t) (info t)). rewrite Ht in Hc. discriminate.
  - specialize (Hh (path t) m). rewrite Ht in Hh. discriminate.
Qed.

(** *** The wait groups *)


(** *** Failures and cancellation *)

Lemma step_signalled (s s' : state) (a : action) :
  step s a = Some s' -> sound s -> signalled Model header s ->
  signalled Model header s'.
Proof.
  intros H [(_ & Hw & _) _] (Hf & Hm). unfold signalled in *.
  destruct a; decide_step H; cbn in *;
    try match goal with
        | E : workers s !! ?i = Some ?w |- _ =>
            pose proof (fun w' => tally_insert cancelling (workers s) i w w' E) as Hins
        end;
    try match goal with
        | |- context [<[_ := ?w']> _] => specialize (Hins w'); cbn in Hins
        end;
    rewrite ?tally_replicate in *;
    try match goal with
        | E : workers s = [] |- _ => rewrite E in *; cbn in *
        end;
    (split;
     [ intros Hne;
       first [ left; finish | right; left; finish | right; right; finish
             | specialize (Hf Hne); destruct Hf as [Hf|[Hf|Hf]];
               first [ left; finish | right; left; finish | right; right; finish ] ]
     | intros e0 He0;
       first [ finish | eapply Hm; eassumption
             | pose proof (Hm _ He0); finish ] ]).
Qed.

Lemma init_signalled (idxer : Metadata.Indexer) (b : browse) :
  signalled Model header (init idxer b).
Proof. split; cbn; [congruence|discriminate]. Qed.

Lemma run_signalled (idxer : Metadata.Indexer) (b : browse) (acts : list action)
    (s : state) :
  run acts (init idxer b) = Some s -> signalled Model header s.
Proof.
  intros H.
  apply (run_invariant (fun s => sound s /\ signalled Model header s)
           (fun s s' a Hs HP => conj (step_sound s s' a Hs (proj1 HP))
                                     (step_signalled s s' a Hs (proj1 HP) (proj2 HP)))
           acts _ _ H (conj (init_sound idxer b) (init_signalled idxer b))).
Qed.

(** X4. Once [Dump] has returned, the context has been cancelled whenever
    the walk failed or a worker or the emitter logged a failure: every
    logged failure is followed by [cancel()] before the goroutine leaves. *)
Theorem Dump_failure_cancels (idxer : Metadata.Indexer) (b : browse)
    (acts : list action) (s : state) (r : option string) :
  run acts (init idxer b) = Some s ->
  mainT s = MReturned r ->
  r <> None \/ failures s <> [] ->
  cancelled s = true.
Proof.
  intros Hrun Hret Hor.
  destruct (run_signalled idxer b acts s Hrun) as (Hf & Hm).
  destruct r as [e|]; [exact (Hm e Hret)|].
  destruct Hor as [Hor|Hor]; [congruence|].
  destruct (run_sound idxer b acts s Hrun) as [(_ & _ & Hall) _].
  specialize (Hall Hret). unfold allDone, emitterDone in Hall.
  apply andb_prop in Hall. destruct Hall as [Hall Hws].
  apply andb_prop in Hall. destruct Hall as [He _].
  destruct (Hf Hor) as [Hc|[Hc|Hc]]; [exact Hc| |].
  - rewrite Hc in He. discriminate.
  - apply (active_zero_done Model header) in Hws.
    pose proof (tally_le_active cancelling (workers s)) as Hle.
    assert (tally cancelling (workers s) <= active (workers s))%nat.
    { apply Hle; intros w; destruct w; cbn; try lia; discriminate. }
    lia.
Qed.

(** *** The framing of the output *)

Local Abbreviation linePair := (Census.linePair Model header Encode_header Encode_pic).
Local Abbreviation encodes := (Census.encodes Model header Encode_header Encode_pic).
Local Abbreviation framed := (Census.framed Model header Encode_header Encode_pic).

Lemma snoc_not_nil {A} (l : list A) (x : A) : (l ++ [x])%list <> [].
Proof. destruct l; discriminate. Qed.

Lemma flat_map_linePair_snoc (ts : list (printTask Model header))
    (t : printTask Model header) (h p : string) :
  Encode_header (hdr t) = inl h -> Encode_pic (pic t) = inl p ->
  flat_map linePair (ts ++ [t]) = (flat_map linePair ts ++ [h; p])%list.
Proof.
  intros Hh Hp. rewrite flat_map_app. cbn. unfold Census.linePair.
  rewrite Hh, Hp. now rewrite app_nil_r.
Qed.

(** A step of a goroutine other than the emitter leaves the framing as it
    is. *)
Lemma framed_frame (s s' : state) :
  written s' = written s -> emitterT s' = emitterT s ->
  (failures s <> [] -> failures s' <> []) ->
  framed s -> framed s'.
Proof.
  intros Hw He Hf (ts & tail & Hwr & Hall & Hcase). exists ts, tail.
  rewrite Hw, He. split; [assumption|]. split; [assumption|].
  destruct (emitterT s); try assumption;
    (destruct Hcase as [Hcase|(t0 & h & e & H1 & H2 & H3 & H4)];
     [left; assumption | right; exists t0, h, e; auto]).
Qed.

Lemma step_framed (s s' : state) (a : action) :
  step s a = Some s' -> framed s -> framed s'.
Proof.
  intros H Hfr. destruct a.
  - apply (framed_frame s s'); [| | |assumption];
      decide_step H; cbn; auto using snoc_not_nil.
  - destruct Hfr as (ts & tail & Hwr & Hall & Hcase).
    decide_step H; unfold Census.framed; cbn in *.
    + exists ts, tail. auto.
    + exists ts, tail. auto.
    + exists ts, tail. auto.
    + exists ts, tail. auto.
    + exists ts, [s0]. subst tail. rewrite Hwr, !app_nil_r. eauto.
    + exists ts, tail. auto.
    + destruct Hcase as (h & Hh & ->). exists (ts ++ [t])%list, [].
      rewrite Hwr, app_nil_r.
      rewrite (flat_map_linePair_snoc ts t h s0) by assumption.
      rewrite <- app_assoc. split; [reflexivity|]. split; [|reflexivity].
      apply Forall_app. split; [assumption|]. constructor; [|constructor].
      exists h, s0. auto.
    + destruct Hcase as (h & Hh & ->). exists ts, [h]. split; [assumption|].
      split; [assumption|]. right. exists t, h, s0. auto using snoc_not_nil.
    + exists ts, tail. auto.
    + exists ts, tail. auto.
  - apply (framed_frame s s'); [| | |assumption];
      decide_step H; cbn; auto using snoc_not_nil.
  - apply (framed_frame s s'); [| | |assumption];
      decide_step H; cbn; auto using snoc_not_nil.
  - apply (framed_frame s s'); [| | |assumption];
      decide_step H; cbn; auto using snoc_not_nil.
Qed.

Lemma init_framed (idxer : Metadata.Indexer) (b : browse) : framed (init idxer b).
Proof. exists [], []. cbn. auto. Qed.

(** X5. Whatever the schedule, the output is a sequence of pairs, a header
    line directly followed by the record line of the same task, with at most
    one more header line at the end; that last header stands alone only while
    the emitter is between the two lines of a pair, or for good after the
    record of that task failed to encode. *)
Theorem Dump_output_framed (idxer : Metadata.Indexer) (b : browse)
    (acts : list action) (s : state) :
  run acts (init idxer b) = Some s ->
  exists ts tail,
    written s = (flat_map linePair ts ++ tail)%list
    /\ Forall encodes ts
    /\ (tail = []
        \/ exists t h, Encode_header (hdr t) = inl h /\ tail = [h]
                       /\ (emitterT s = EPic Model header t
                           \/ (failures s <> []
                               /\ exists e, Encode_pic (pic t) = inr e))).
Proof.
  intros Hrun.
  destruct (run_invariant framed step_framed acts _ _ Hrun (init_framed idxer b))
    as (ts & tail & Hwr & Hall & Hcase).
  exists ts, tail. split; [assumption|]. split; [assumption|].
  destruct (emitterT s) as [|t|t|t| | |] eqn:He; auto;
    try (destruct Hcase as [Hcase|(t0 & h & e & H1 & H2 & H3 & H4)];
         [left; assumption | right; exists t0, h; eauto 7]).
  destruct Hcase as (h & Hh & ->). right. exists t, h. auto.
Qed.

(** *** No task is lost on a run without failure *)

Local Abbreviation conserved := (Census.conserved Model header).

Lemma step_conserved (n : nat) (s s' : state) (a : action) :
  step s a = Some s' -> sound s -> conserved n s -> conserved n s'.
Proof.
  intros H [(_ & Hw & _) _] Hc Hcan Hfail. unfold Census.inFlight.
  unfold Census.conserved, Census.inFlight in Hc.
  destruct a; decide_step H; cbn in *;
    try discriminate;
    try (exfalso; eapply snoc_not_nil; eassumption);
    specialize (Hc ltac:(finish) ltac:(finish));
    destruct Hc as (Hn & Hg & He);
    try match goal with
        | E : workers s !! ?i = Some ?w |- _ =>
            pose proof (fun w' => tally_insert holds (workers s) i w w' E) as Hih;
            pose proof (fun w' => tally_insert gone (workers s) i w w' E) as Hig
        end;
    try match goal with
        | |- context [<[_ := ?w']> _] =>
            specialize (Hih w'); specialize (Hig w'); cbn in Hih, Hig
        end;
    rewrite ?tally_replicate in *;
    try match goal with
        | E : workers s = [] |- _ => rewrite E in *; cbn in *
        end;
    try match goal with E : mainT s = _ |- _ => rewrite E end;
    try match goal with E : emitterT s = _ |- _ => rewrite E end;
    try match goal with E : buf (toExtractChan s) = _ |- _ => rewrite E in * end;
    try match goal with E : buf (toDumpChan s) = _ |- _ => rewrite E in * end;
    rewrite ?length_app in *; cbn in *;
    (split; [|split]); intros;
    try lia;
    try (split; finish);
    try (destruct (Hg ltac:(lia)) as [? ?]; split; finish);
    try (destruct (He ltac:(finish)) as [? ?]; split; finish);
    try (exfalso; congruence).
Qed.

Lemma init_conserved (idxer : Metadata.Indexer) (b : browse) :
  conserved (length (found b)) (init idxer b).
Proof.
  intros _ _. unfold Census.inFlight. cbn. repeat split; try lia; discriminate.
Qed.

Lemma run_conserved (idxer : Metadata.Indexer) (b : browse) (acts : list action)
    (s : state) :
  run acts (init idxer b) = Some s -> conserved (length (found b)) s.
Proof.
  intros H.
  apply (run_invariant (fun s => sound s /\ conserved (length (found b)) s)
           (fun s s' a Hs HP =>
              conj (step_sound s s' a Hs (proj1 HP))
                   (step_conserved _ s s' a Hs (proj1 HP) (proj2 HP)))
           acts _ _ H (conj (init_sound idxer b) (init_conserved idxer b))).
Qed.

(** X6. A run in which nothing failed and nothing was cancelled, and in
    which [Dump] has returned, has written exactly two lines for every file
    the walk found. *)
Theorem Dump_writes_every_file (idxer : Metadata.Indexer) (b : browse)
    (acts : list action) (s : state) :
  run acts (init idxer b) = Some s ->
  mainT s = MReturned None ->
  cancelled s = false ->
  failures s = [] ->
  length (written s) = (2 * length (found b))%nat.
Proof.
  intros Hrun Hret Hcan Hfail.
  destruct (run_conserved idxer b acts s Hrun Hcan Hfail) as (Hn & Hg & He).
  destruct (run_sound idxer b acts s Hrun) as [(_ & Hw & Hall) _].
  destruct (run_invariant (bounded Model header idxer) (step_bounded idxer)
              acts _ _ Hrun (init_bounded idxer b)) as (_ & _ & Ht & _ & _ & Hlen).
  specialize (Hall Hret). unfold allDone, emitterDone, coordDone in Hall.
  apply andb_prop in Hall. destruct Hall as [Hall Hws].
  apply andb_prop in Hall. destruct Hall as [Hem Hco].
  destruct (emitterT s) eqn:Ee; try discriminate.
  destruct (coordT s) eqn:Ec; try discriminate.
  assert (Hthreads : (1 <= threads s)%nat).
  { rewrite Ht. unfold Metadata.extractionThreadCount, Metadata.defaultExtrationThreadCount.
    destruct (Z.ltb_spec (Metadata.ExtractionThreadCount (Metadata.conf idxer)) 1); lia. }
  assert (Hgone : tally gone (workers s) = length (workers s)).
  { clear - Hws. induction (workers s) as [|w ws IH]; [reflexivity|].
    cbn in Hws. apply andb_prop in Hws. destruct Hws as [Hd Hws].
    cbn. rewrite (IH Hws). destruct w; try discriminate. reflexivity. }
  assert (Hholds : tally holds (workers s) = 0%nat).
  { clear - Hws. induction (workers s) as [|w ws IH]; [reflexivity|].
    cbn in Hws. apply andb_prop in Hws. destruct Hws as [Hd Hws].
    cbn. rewrite (IH Hws). destruct w; try discriminate. reflexivity. }
  destruct (Hg ltac:(lia)) as [_ Hb1]. destruct (He eq_refl) as [_ Hb2].
  unfold Census.inFlight in Hn. rewrite Hret, Hb1, Hb2, Hholds, Ee in Hn. cbn in Hn. lia.
Qed.


(** *** Progress on a run without failure *)

Lemma step_closedAfter (s s' : state) (a : action) :
  step s a = Some s' -> closedAfter Model header s -> closedAfter Model header s'.
Proof.
  intros H (H1 & H2). unfold closedAfter in *.
  destruct a; decide_step H; cbn in *;
    repeat match goal with
           | E : mainT s = _ |- _ => rewrite E in *
           | E : coordT s = _ |- _ => rewrite E in *
           end; cbn in *;
    split; intros; auto; try congruence; try tauto;
    try (destruct (coordT s); first [exact I | assumption | congruence]).
Qed.

Lemma init_closedAfter (idxer : Metadata.Indexer) (b : browse) :
  closedAfter Model header (init idxer b).
Proof. split; cbn; [discriminate|exact I]. Qed.

Lemma active_pos_lookup (ws : list worker_pc) :
  active ws <> 0%nat -> exists i w, ws !! i = Some w /\ workerDone w = false.
Proof.
  induction ws as [|x ws IH]; cbn; [congruence|].
  destruct (workerDone x) eqn:Hx.
  - intros H. destruct (IH H) as (i & w & Hi & Hw). exists (S i), w. auto.
  - intros _. exists 0%nat, x. auto.
Qed.

Lemma gone_all_done (ws : list worker_pc) :
  active ws = 0%nat -> tally gone ws = length ws /\ tally holds ws = 0%nat.
Proof.
  induction ws as [|w ws IH]; cbn; [auto|].
  destruct w; cbn; try lia; intros H; destruct (IH H) as [-> ->]; auto.
Qed.

(** Takes the step of the given action: the tests of the step function
    are decided by the equations at hand. *)
Ltac fire a :=
  exists a; eexists; split; [discriminate|];
  unfold Pipeline.step, Pipeline.stepMain, Pipeline.stepEmitter, Pipeline.stepCoord,
    Pipeline.stepWorker, Pipeline.hasRoom;
  repeat (progress (repeat match goal with
                           | E : crashed _ = _ |- _ => rewrite E
                           | E : mainT _ = _ |- _ => rewrite E
                           | E : emitterT _ = _ |- _ => rewrite E
                           | E : coordT _ = _ |- _ => rewrite E
                           | E : cancelled _ = _ |- _ => rewrite E
                           | E : wg _ = _ |- _ => rewrite E
                           | E : consumeWg _ = _ |- _ => rewrite E
                           | E : buf _ = _ |- _ => rewrite E
                           | E : closed _ = _ |- _ => rewrite E
                           | E : _ !! _ = _ |- _ => rewrite E
                           | E : convert _ _ = _ |- _ => rewrite E
                           | E : getBulkEntryHeader _ _ = _ |- _ => rewrite E
                           | E : Encode_header _ = _ |- _ => rewrite E
                           | E : Encode_pic _ = _ |- _ => rewrite E
                           end; cbn));
  reflexivity.

(** X7. As long as nothing has failed, nothing was cancelled and no goroutine
    has panicked, [Dump] cannot be stuck before it returns: some goroutine
    of the run can take a step. *)
Theorem Dump_progress (idxer : Metadata.Indexer) (b : browse)
    (acts : list action) (s : state) :
  run acts (init idxer b) = Some s ->
  crashed s = None -> cancelled s = false -> failures s = [] ->
  (forall r, mainT s <> MReturned r) ->
  exists a s', a <> AParent /\ step s a = Some s'.
Proof.
  intros Hrun Hcr Hcan Hfail Hnot.
  destruct (run_sound idxer b acts s Hrun) as [(Hwg & Hw & _) (Hs1 & Hs2)].
  destruct (run_invariant (bounded Model header idxer) (step_bounded idxer)
              acts _ _ Hrun (init_bounded idxer b)) as (Hc1 & Hc2 & Ht & _ & _ & Hlen).
  destruct (run_invariant (closedAfter Model header) step_closedAfter
              acts _ _ Hrun (init_closedAfter idxer b)) as (Ha1 & Ha2).
  destruct (run_conserved idxer b acts s Hrun Hcan Hfail) as (_ & Hg & He).
  assert (Hcap1 : (1 <= cap (toExtractChan s))%nat).
  { rewrite Hc1. unfold Metadata.toExtractChannelSize, Metadata.defaultToExtractChannelSize.
    destruct (Z.ltb_spec (Metadata.ToExtractChannelSize (Metadata.conf idxer)) 1); lia. }
  assert (Hthreads : (1 <= threads s)%nat).
  { rewrite Ht. unfold Metadata.extractionThreadCount, Metadata.defaultExtrationThreadCount.
    destruct (Z.ltb_spec (Metadata.ExtractionThreadCount (Metadata.conf idxer)) 1); lia. }
  assert (Hcap2 : (1 <= cap (toDumpChan s))%nat) by lia.
  unfold emitterDone, coordDone in Hwg.
  destruct (coordT s) eqn:Ec.
  - fire ACoord.
  - destruct (consumeWg s) as [|k] eqn:Ek; [fire ACoord|].
    destruct (active_pos_lookup (workers s) ltac:(lia)) as (i & w & Hi & Hd).
    destruct w; try discriminate.
    + destruct (buf (toExtractChan s)) as [|t q] eqn:Eb; [|fire (AWorker i)].
      destruct (closed (toExtractChan s)) eqn:Ecl; [fire (AWorker i)|].
      destruct (mainT s) as [todo err|err| |r] eqn:Em;
        try (specialize (Ha1 eq_refl); discriminate).
      destruct todo as [|t todo]; [fire AMain|].
      exists AMain. eexists. split; [discriminate|].
      unfold Pipeline.step, Pipeline.stepMain, Pipeline.hasRoom.
      rewrite Hcr, Em, Ecl, Eb. cbn.
      destruct (cap (toExtractChan s)); [lia|reflexivity].
    + fire (AWorker i).
    + destruct (convert (path t) (info t)) eqn:Econv; fire (AWorker i).
    + destruct (getBulkEntryHeader (path t) p) eqn:Ehdr; fire (AWorker i).
    + destruct (closed (toDumpChan s)) eqn:Ecl; [fire (AWorker i)|].
      destruct (Nat.ltb_spec (length (buf (toDumpChan s))) (cap (toDumpChan s)))
        as [Hroom|Hfull].
      * exists (AWorker i). eexists. split; [discriminate|].
        unfold Pipeline.step, Pipeline.stepWorker, Pipeline.hasRoom.
        rewrite Hcr, Hi, Ecl. apply Nat.ltb_lt in Hroom. rewrite Hroom. reflexivity.
      * destruct (emitterT s) as [|t1|t1|t1| | |] eqn:Ee.
        -- destruct (buf (toDumpChan s)) as [|p q] eqn:Eb; [cbn in Hfull; lia|].
           fire AEmitter.
        -- fire AEmitter.
        -- destruct (Encode_header (hdr t1)) eqn:Eh; fire AEmitter.
        -- destruct (Encode_pic (pic t1)) eqn:Ep; fire AEmitter.
        -- fire AEmitter.
        -- fire AEmitter.
        -- destruct (He eq_refl) as [_ Hb]. rewrite Hb in Hfull. cbn in Hfull. lia.
    + fire (AWorker i).
    + fire (AWorker i).
  - fire ACoord.
  - fire ACoord.
  - destruct (emitterT s) as [|t1|t1|t1| | |] eqn:Ee.
    + destruct (buf (toDumpChan s)) as [|p q] eqn:Eb; fire AEmitter.
    + fire AEmitter.
    + destruct (Encode_header (hdr t1)) eqn:Eh; fire AEmitter.
    + destruct (Encode_pic (pic t1)) eqn:Ep; fire AEmitter.
    + fire AEmitter.
    + fire AEmitter.
    + destruct (mainT s) as [todo err|err| |r] eqn:Em.
      * destruct todo as [|t todo]; [fire AMain|]. exfalso.
        destruct (gone_all_done (workers s) Hw) as [Hgo _].
        destruct (Hg ltac:(lia)) as [Hcl _].
        specialize (Hs1 Hcl). discriminate.
      * destruct err; fire AMain.
      * fire AMain.
      * exfalso. exact (Hnot r eq_refl).
Qed.

End PipelineSafety.

(** ** Paths and the folder of a record *)

Lemma Split_not_nil (s : string) (c : ascii) : Go.Split s c <> [].
Proof.
  intros H. pose proof (Split_length s c) as Hl. rewrite H in Hl. discriminate.
Qed.

Lemma Split_app (s1 s2 : string) (c : ascii) :
  Go.Split (s1 ++ String c s2) c = (Go.Split s1 c ++ Go.Split s2 c)%list.
Proof.
  induction s1 as [|a s1 IH]; simpl.
  - now rewrite Ascii.eqb_refl.
  - rewrite IH. destruct (Ascii.eqb a c); [reflexivity|].
    destruct (Go.Split s1 c) as [|h t] eqn:E; [|reflexivity].
    exfalso. exact (Split_not_nil s1 c E).
Qed.

Lemma Split_no_separator (s : string) (c : ascii) :
  Go.count c s = 0%nat -> Go.Split s c = [s].
Proof.
  induction s as [|a s IH]; cbn; [reflexivity|].
  destruct (Ascii.eqb a c); [discriminate|]. intros H. now rewrite (IH H).
Qed.

Lemma nth_app_two {A} (l : list A) (x y d : A) :
  nth (length (l ++ [x; y]) - 2) (l ++ [x; y]) d = x.
Proof.
  rewrite length_app. cbn [length].
  replace (length l + 2 - 2)%nat with (length l) by lia.
  rewrite app_nth2 by lia. now rewrite Nat.sub_diag.
Qed.

(** The folder of a path is the name of the directory that holds the
    file: for a path that ends in [folder], a separator and [name], neither
    of which contains the separator, it is [folder], whatever comes before;
    for a path without separator it is empty. *)
Theorem folderOf_parent (sep : ascii) (folder name : string) :
  Go.count sep folder = 0%nat -> Go.count sep name = 0%nat ->
  Legacy.folderOf sep (folder ++ String sep name) = folder
  /\ (forall dir, Legacy.folderOf sep (dir ++ String sep (folder ++ String sep name))
                  = folder)
  /\ Legacy.folderOf sep name = EmptyString.
Proof.
  intros Hf Hn. unfold Legacy.folderOf. repeat split.
  - rewrite Split_app, (Split_no_separator folder), (Split_no_separator name) by assumption.
    reflexivity.
  - intros dir.
    rewrite !Split_app, (Split_no_separator folder), (Split_no_separator name)
      by assumption.
    change ([folder] ++ [name])%list with [folder; name].
    pose proof (Split_length dir sep) as Hl.
    destruct (Nat.ltb_spec 1 (length (Go.Split dir sep ++ [folder; name])%list)) as [_|Hlt].
    + apply nth_app_two.
    + rewrite length_app in Hlt. cbn in Hlt. lia.
  - rewrite (Split_no_separator name) by assumption. reflexivity.
Qed.

(** Both converters store that folder in the record they return. *)
Lemma convertMetas_folder `{FL : FloatLib} `{TL : TimeLib} (sep : ascii)
    (metas : list (Legacy.FileMetadata float64)) (f : string) (fInfo : FileInfo)
    (pic : Legacy.Model float64) :
  Legacy.convertMetas sep metas f fInfo = Ok pic ->
  Legacy.Folder pic = Legacy.folderOf sep f
  /\ Legacy.FileName pic = Name fInfo
  /\ Legacy.FileSize pic = Size fInfo mod 2 ^ 64.
Proof.
  unfold Legacy.convertMetas.
  destruct (negb _); [discriminate|].
  destruct (Legacy.getFloat _ _); cbn; try discriminate.
  destruct (Legacy.getUint64FromFloat64 _ Legacy.HEIGHT_KEY); cbn; try discriminate.
  destruct (Legacy.getUint64FromFloat64 _ Legacy.WIDTH_KEY); cbn; try discriminate.
  destruct (Legacy.decodeKeywords _); cbn; try discriminate.
  destruct (Legacy.decodeDate _); cbn; try discriminate.
  destruct (Legacy.decodeGPS _); cbn; try discriminate.
  intros [= <-]. repeat split.
Qed.

(** ** The GPS converter: when it succeeds, fails and panics *)

Section GPSShape.
Context `{FL : FloatLib}.
Import Legacy.

Lemma take_all_but_last (s : string) (a : ascii) :
  exists c, String a s = Stated.snoc (Go.take (String.length s) (String a s)) c.
Proof.
  revert a. induction s as [|b s IH]; intros a.
  - exists a. reflexivity.
  - destruct (IH b) as [c Hc]. exists c.
    change (Go.take (String.length (String b s)) (String a (String b s)))
      with (String a (Go.take (String.length s) (String b s))).
    change (Stated.snoc (String a (Go.take (String.length s) (String b s))) c)
      with (String a (Stated.snoc (Go.take (String.length s) (String b s)) c)).
    now rewrite <- Hc.
Qed.

Lemma skipLastChar_Ok_inv (src t : string) :
  skipLastChar src = Ok t -> exists c, src = Stated.snoc t c.
Proof.
  unfold skipLastChar. destruct src as [|a s]; [discriminate|]. cbn.
  intros [= <-]. apply take_all_but_last.
Qed.

(** X9. [skipLastChar] returns [t] exactly on the strings made of [t] and one
    more byte: it removes the last byte and nothing else. *)
Theorem skipLastChar_removes_last_byte (src t : string) :
  skipLastChar src = Ok t <-> exists c, src = Stated.snoc t c.
Proof.
  split.
  - apply skipLastChar_Ok_inv.
  - intros [c ->]. apply skipLastChar_snoc.
Qed.

Lemma skipLastChar_dropLast (s : string) :
  s <> EmptyString -> skipLastChar s = Ok (Shape.dropLast s).
Proof. destruct s; [congruence|]. reflexivity. Qed.

Lemma degMinSecToDecimal_Ok_inv (deg min sec l : string) (v : float32) :
  degMinSecToDecimal deg min sec l = Ok v ->
  exists fd fm fs sg,
    ParseFloat32 deg = Some fd /\ ParseFloat32 min = Some fm
    /\ ParseFloat32 sec = Some fs /\ Stated.sign l = Some sg
    /\ v = Stated.decimal fd fm fs sg.
Proof.
  unfold degMinSecToDecimal, Stated.sign.
  destruct (ParseFloat32 deg) as [fd|]; [|discriminate].
  destruct (ParseFloat32 min) as [fm|]; [|discriminate].
  destruct (ParseFloat32 sec) as [fs|]; [|discriminate].
  destruct (String.eqb l "S" || String.eqb l "W").
  - intros [= <-]. exists fd, fm, fs, (-1). auto.
  - destruct (String.eqb l "N" || String.eqb l "E"); [|discriminate].
    intros [= <-]. exists fd, fm, fs, 1. auto.
Qed.

(** X10. [convertGPSCoordinates] succeeds only on a string of ten tokens whose
    third, fourth, fifth, eighth and ninth tokens have a last byte to lose,
    whose six numbers parse and whose two hemisphere letters are among N, S,
    E and W; the values are then the two stated decimals. *)
Theorem convertGPSCoordinates_Ok_inv (latLong : string) (lat long : float32) :
  convertGPSCoordinates latLong = Ok (lat, long) ->
  exists d1 x1 m1 s1 l1 d2 x2 m2 s2 l2 c1 c2 c3 c4 c5 fd1 fm1 fs1 sg1 fd2 fm2 fs2 sg2,
    Go.Split latLong " "%char =
      [d1; x1; Stated.snoc m1 c1; Stated.snoc s1 c2; Stated.snoc l1 c3;
       d2; x2; Stated.snoc m2 c4; Stated.snoc s2 c5; l2]
    /\ ParseFloat32 d1 = Some fd1 /\ ParseFloat32 m1 = Some fm1
    /\ ParseFloat32 s1 = Some fs1 /\ Stated.sign l1 = Some sg1
    /\ ParseFloat32 d2 = Some fd2 /\ ParseFloat32 m2 = Some fm2
    /\ ParseFloat32 s2 = Some fs2 /\ Stated.sign l2 = Some sg2
    /\ lat = Stated.decimal fd1 fm1 fs1 sg1
    /\ long = Stated.decimal fd2 fm2 fs2 sg2.
Proof.
  unfold convertGPSCoordinates.
  destruct (Go.Split latLong " "%char)
    as [|d1 [|x1 [|t2 [|t3 [|t4 [|d2 [|x2 [|t7 [|t8 [|l2 [|]]]]]]]]]]] eqn:Hs;
    try discriminate.
  cbn [length Nat.eqb negb nth].
  destruct (skipLastChar t2) as [m1|e|p] eqn:E2; try discriminate.
  destruct (skipLastChar t3) as [s1|e|p] eqn:E3; try discriminate.
  destruct (skipLastChar t4) as [l1|e|p] eqn:E4; try discriminate.
  cbn [mbind result_mbind result_bind].
  destruct (degMinSecToDecimal d1 m1 s1 l1) as [la|e|p] eqn:Elat; try discriminate.
  destruct (skipLastChar t7) as [m2|e|p] eqn:E7; try discriminate.
  destruct (skipLastChar t8) as [s2|e|p] eqn:E8; try discriminate.
  cbn [mbind result_mbind result_bind].
  destruct (degMinSecToDecimal d2 m2 s2 l2) as [lo|e|p] eqn:Elong; try discriminate.
  intros [= <- <-].
  apply skipLastChar_Ok_inv in E2, E3, E4, E7, E8.
  destruct E2 as [c1 ->], E3 as [c2 ->], E4 as [c3 ->], E7 as [c4 ->], E8 as [c5 ->].
  destruct (degMinSecToDecimal_Ok_inv _ _ _ _ _ Elat)
    as (fd1 & fm1 & fs1 & sg1 & H1 & H2 & H3 & H4 & H5).
  destruct (degMinSecToDecimal_Ok_inv _ _ _ _ _ Elong)
    as (fd2 & fm2 & fs2 & sg2 & H6 & H7 & H8 & H9 & H10).
  exists d1, x1, m1, s1, l1, d2, x2, m2, s2, l2, c1, c2, c3, c4, c5.
  exists fd1, fm1, fs1, sg1, fd2, fm2, fs2, sg2.
  repeat split; assumption.
Qed.

(** X11. The token-count error is returned exactly for the strings that do not
    hold exactly nine spaces. *)
Theorem convertGPSCoordinates_nine_spaces (latLong : string) :
  convertGPSCoordinates latLong =
    Err ("Parsing inconsistency (" ++ latLong ++ "): "
         ++ Go.FormatInt (Z.of_nat (S (Go.count " "%char latLong)))
         ++ " elements parsed")
  <-> Go.count " "%char latLong <> 9%nat.
Proof.
  pose proof (Split_length latLong " "%char) as Hl. split.
  - intros H Hc. unfold convertGPSCoordinates in H. rewrite Hl, Hc in H.
    cbn [Nat.eqb negb] in H. cbv zeta in H.
    set (sub := Go.Split latLong " "%char) in H.
    unfold skipLastChar in H.
    destruct (String.length (nth 2 sub EmptyString)); cbn in H; try discriminate.
    destruct (String.length (nth 3 sub EmptyString)); cbn in H; try discriminate.
    destruct (String.length (nth 4 sub EmptyString)); cbn in H; try discriminate.
    destruct (degMinSecToDecimal (nth 0 sub EmptyString) _ _ _); try discriminate.
    destruct (String.length (nth 7 sub EmptyString)); cbn in H; try discriminate.
    destruct (String.length (nth 8 sub EmptyString)); cbn in H; try discriminate.
    destruct (degMinSecToDecimal (nth 5 sub EmptyString) _ _ _); discriminate.
  - intros Hc. rewrite convertGPSCoordinates_token_count by lia. now rewrite Hl.
Qed.

(** X12. [convertGPSCoordinates] panics exactly when the string has ten tokens
    and the third, fourth or fifth is empty, or the latitude group converts
    and the eighth or ninth is empty. *)
Theorem convertGPSCoordinates_panics_iff (latLong : string) :
  is_Panic (convertGPSCoordinates latLong) = true
  <-> length (Go.Split latLong " "%char) = 10%nat
      /\ (nth 2 (Go.Split latLong " "%char) EmptyString = EmptyString
          \/ nth 3 (Go.Split latLong " "%char) EmptyString = EmptyString
          \/ nth 4 (Go.Split latLong " "%char) EmptyString = EmptyString
          \/ (is_Ok (degMinSecToDecimal
                       (nth 0 (Go.Split latLong " "%char) EmptyString)
                       (Shape.dropLast (nth 2 (Go.Split latLong " "%char) EmptyString))
                       (Shape.dropLast (nth 3 (Go.Split latLong " "%char) EmptyString))
                       (Shape.dropLast (nth 4 (Go.Split latLong " "%char) EmptyString)))
               = true
              /\ (nth 7 (Go.Split latLong " "%char) EmptyString = EmptyString
                  \/ nth 8 (Go.Split latLong " "%char) EmptyString = EmptyString))).
Proof.
  unfold convertGPSCoordinates. cbv zeta.
  set (sub := Go.Split latLong " "%char).
  destruct (Nat.eqb_spec (length sub) 10) as [Hl|Hl];
    cbn [negb]; [|split; [discriminate|intros [H _]; contradiction]].
  destruct (nth 2 sub EmptyString) as [|a2 r2] eqn:E2; [cbn; tauto|].
  destruct (nth 3 sub EmptyString) as [|a3 r3] eqn:E3; [cbn; tauto|].
  destruct (nth 4 sub EmptyString) as [|a4 r4] eqn:E4; [cbn; tauto|].
  rewrite (skipLastChar_dropLast (String a2 r2)), (skipLastChar_dropLast (String a3 r3)),
    (skipLastChar_dropLast (String a4 r4)) by congruence.
  cbn [mbind result_mbind result_bind].
  pose proof (degMinSecToDecimal_no_panic (nth 0 sub EmptyString)
                (Shape.dropLast (String a2 r2))
                (Shape.dropLast (String a3 r3)) (Shape.dropLast (String a4 r4))) as Hnp.
  destruct (degMinSecToDecimal (nth 0 sub EmptyString) _ _ _) as [lat|e|p].
  - destruct (nth 7 sub EmptyString) as [|a7 r7] eqn:E7; [cbn; tauto|].
    destruct (nth 8 sub EmptyString) as [|a8 r8] eqn:E8; [cbn; tauto|].
    rewrite (skipLastChar_dropLast (String a7 r7)), (skipLastChar_dropLast (String a8 r8))
      by congruence.
    cbn [mbind result_mbind result_bind].
    pose proof (degMinSecToDecimal_no_panic (nth 5 sub EmptyString)
                  (Shape.dropLast (String a7 r7))
                  (Shape.dropLast (String a8 r8)) (nth 9 sub EmptyString)) as Hnp2.
    destruct (degMinSecToDecimal (nth 5 sub EmptyString) _ _ _); cbn in *;
      (split; [discriminate|]); intros (_ & [H|[H|[H|(_ & [H|H])]]]); discriminate.
  - cbn. split; [discriminate|]. intros (_ & [H|[H|[H|(H & _)]]]); discriminate.
  - discriminate.
Qed.

End GPSShape.

(** ** The decoders on records of the expected types *)

Section DecoderShape.
Context `{FL : FloatLib} `{TL : TimeLib}.
Import Legacy.
Local Abbreviation value := (value float64).
Local Abbreviation FileMetadata := (FileMetadata float64).

Lemma keywordsOfSlice_Ok_iff (l : list value) (ks : list string) :
  keywordsOfSlice l = Ok ks <-> l = map VString ks.
Proof.
  split.
  - revert ks. induction l as [|v l IH]; intros ks; cbn.
    + intros [= <-]. reflexivity.
    + destruct v; try discriminate. cbn.
      destruct (keywordsOfSlice l) as [ks'| |] eqn:E; cbn; try discriminate.
      intros [= <-]. cbn. now rewrite (IH ks' eq_refl).
  - intros ->. apply keywordsOfSlice_strings.
Qed.

Lemma keywordsOfSlice_panics_iff (l : list value) :
  is_Panic (keywordsOfSlice l) = true <-> Exists (fun v => ~ Shape.isString v) l.
Proof.
  induction l as [|v l IH]; cbn.
  - split; [discriminate|]. intros H. inversion H.
  - rewrite Exists_cons.
    destruct v; cbn; try (split; [intros _; left; tauto | reflexivity]).
    destruct (keywordsOfSlice l); cbn in *.
    + split; [discriminate|]. intros [H|H]; [tauto|]. apply IH in H. discriminate.
    + split; [discriminate|]. intros [H|H]; [tauto|]. apply IH in H. discriminate.
    + split; [intros _; right; now apply IH|reflexivity].
Qed.

(** X13. A keyword slice decodes to the list [ks] exactly when it is the slice
    of the strings [ks], in order, and the decode panics exactly when some
    element is not a string. *)
Theorem decodeKeywords_slice (m : FileMetadata) (l : list value) :
  Fields m !! KEYWORDS_KEY = Some (VSlice l) ->
  (forall ks, decodeKeywords m = Ok (Some ks) <-> l = map VString ks)
  /\ (is_Panic (decodeKeywords m) = true <-> Exists (fun v => ~ Shape.isString v) l).
Proof.
  intros H. unfold decodeKeywords. rewrite H. split.
  - intros ks. rewrite <- keywordsOfSlice_Ok_iff.
    destruct (keywordsOfSlice l); cbn; split; congruence.
  - rewrite <- keywordsOfSlice_panics_iff. destruct (keywordsOfSlice l); cbn; tauto.
Qed.

Lemma getFloat_numberOrAbsent (m : FileMetadata) (k : string) :
  Shape.numberOrAbsent m k -> is_Ok (getFloat m k) = true.
Proof.
  unfold Shape.numberOrAbsent, getFloat. destruct (Fields m !! k) as [[]|]; cbn; tauto.
Qed.

Lemma getUint64FromFloat64_numberOrAbsent (m : FileMetadata) (k : string) :
  Shape.numberOrAbsent m k -> is_Ok (getUint64FromFloat64 m k) = true.
Proof.
  unfold Shape.numberOrAbsent, getUint64FromFloat64.
  destruct (Fields m !! k) as [[]|]; cbn; tauto.
Qed.

Lemma decodeKeywords_ofStrings (m : FileMetadata) :
  Shape.keywordsOfStrings m -> is_Ok (decodeKeywords m) = true.
Proof.
  unfold Shape.keywordsOfStrings, decodeKeywords.
  destruct (Fields m !! KEYWORDS_KEY) as [[]|]; cbn; try tauto.
  intros H. pose proof (keywordsOfSlice_panics_iff l) as Hp.
  pose proof (keywordsOfSlice_no_error l) as He.
  destruct (keywordsOfSlice l); cbn in *; try reflexivity; try discriminate.
  exfalso. destruct Hp as [Hp _]. specialize (Hp eq_refl).
  apply Exists_exists in Hp. destruct Hp as (v & Hin & Hv).
  rewrite Forall_forall in H. apply Hv. apply H. exact Hin.
Qed.

(** X14. On a single record whose aperture, height and width are numbers or
    missing, whose keywords hold only strings when they are a slice, and
    whose capture date and GPS position are strings or missing, [convert]
    never panics unless the GPS converter does, and it returns a record when
    date and position are missing. *)
Theorem convertMetas_well_typed (sep : ascii) (m : FileMetadata) (f : string)
    (fInfo : FileInfo) :
  Shape.numberOrAbsent m APERTURE_KEY ->
  Shape.numberOrAbsent m HEIGHT_KEY ->
  Shape.numberOrAbsent m WIDTH_KEY ->
  Shape.keywordsOfStrings m ->
  Shape.stringOrAbsent m CAPTUREDATE_KEY ->
  Shape.stringOrAbsent m GPS_KEY ->
  (is_Panic (convertMetas sep [m] f fInfo) = true ->
   exists g, Fields m !! GPS_KEY = Some (VString g)
             /\ is_Panic (convertGPSCoordinates g) = true)
  /\ (Fields m !! CAPTUREDATE_KEY = None -> Fields m !! GPS_KEY = None ->
      is_Ok (convertMetas sep [m] f fInfo) = true).
Proof.
  intros Ha Hh Hw Hk Hd Hg. unfold convertMetas. cbn [length Nat.eqb negb nth].
  apply getFloat_numberOrAbsent in Ha.
  apply getUint64FromFloat64_numberOrAbsent in Hh, Hw.
  apply decodeKeywords_ofStrings in Hk.
  destruct (getFloat m APERTURE_KEY); try discriminate.
  destruct (getUint64FromFloat64 m HEIGHT_KEY); try discriminate.
  destruct (getUint64FromFloat64 m WIDTH_KEY); try discriminate.
  destruct (decodeKeywords m); try discriminate.
  cbn [mbind result_mbind result_bind].
  unfold decodeDate, decodeGPS, Shape.stringOrAbsent in *.
  destruct (Fields m !! CAPTUREDATE_KEY) as [[]|]; try tauto;
    destruct (Fields m !! GPS_KEY) as [[]|]; try tauto; cbn;
    try destruct (time_Parse SRC_DATE_FORMAT _); cbn;
    try (split; [discriminate|first [discriminate | reflexivity]]).
  all: destruct (convertGPSCoordinates _) as [[lat long]| |] eqn:Eg; cbn;
    (split; [|discriminate]); try discriminate; intros _; eexists; split;
    [reflexivity| now rewrite Eg].
Qed.

End DecoderShape.

(** ** The legacy directory operation: the log and the end of the walk *)

Section IndexLog.
Context `{FL : FloatLib} `{TL : TimeLib}.
Variable ExtractMetadata : string -> list (Legacy.FileMetadata float64).
Variable PathSeparator : ascii.
Variable json_Encode : Legacy.Model float64 -> string + string.
Import Legacy.

Local Abbreviation convert := (Legacy.convert ExtractMetadata PathSeparator).
Local Abbreviation indexFile := (Legacy.indexFile json_Encode).
Local Abbreviation walkIndex :=
  (Legacy.walkIndex ExtractMetadata PathSeparator json_Encode).
Local Abbreviation Index := (Legacy.Index ExtractMetadata PathSeparator json_Encode).

(** The callback only adds to the log, and it logs the error of a failed
    conversion with the path. *)
Lemma indexFile_log (path : string) (r : result (Model float64)) (o : IndexOutput) :
  (forall l, In l (logged o) -> In l (logged (snd (indexFile path r o))))
  /\ (forall e, r = Err e -> In (path ++ ": " ++ e) (logged (snd (indexFile path r o)))).
Proof.
  unfold Legacy.indexFile. destruct r as [pic|e|p]; cbn.
  - split; [|discriminate]. intros l Hl.
    destruct (MimeType pic) as [mt|]; [|assumption].
    destruct (Go.HasPrefix mt IMAGE_MIME_TYPE); [|assumption].
    destruct (json_Encode pic); cbn; [assumption|].
    apply in_or_app. now left.
  - split.
    + intros l Hl. apply in_or_app. now left.
    + intros e' [= <-]. apply in_or_app. right. now left.
  - split; [auto|discriminate].
Qed.

Lemma walkIndex_log (visits : list visit) :
  forall o,
    (forall l, In l (logged o) -> In l (logged (snd (walkIndex visits o))))
    /\ (fst (walkIndex visits o) = Ok tt ->
        forall path info e,
          In (Visit path info) visits -> IsDir info = false ->
          convert path info = Err e ->
          In (path ++ ": " ++ e) (logged (snd (walkIndex visits o)))).
Proof.
  induction visits as [|v visits IH]; intros o.
  - cbn. split; [auto|]. intros _ path info e [].
  - destruct v as [path0 info0|path0 err0]; cbn [Legacy.walkIndex].
    + destruct (IsDir info0) eqn:Hdir.
      * destruct (IH o) as [Hmono Hlog]. split; [exact Hmono|].
        intros Hok path info e [Hin|Hin] Hd Hc; [|eauto].
        injection Hin as <- <-. congruence.
      * destruct (indexFile_log path0 (convert path0 info0) (logLine path0 o))
          as [Hm1 He1].
        destruct (indexFile path0 (convert path0 info0) (logLine path0 o))
          as [[[]|e1|p1] o1] eqn:Hf; cbn [fst snd] in *.
        -- destruct (IH o1) as [Hmono Hlog]. split.
           ++ intros l Hl. apply Hmono, Hm1. cbn. apply in_or_app. now left.
           ++ intros Hok path info e [Hin|Hin] Hd Hc; [|eauto].
              injection Hin as <- <-. apply Hmono. now apply He1.
        -- split; [|discriminate]. intros l Hl. apply Hm1. cbn. apply in_or_app. now left.
        -- split; [|discriminate]. intros l Hl. apply Hm1. cbn. apply in_or_app. now left.
    + cbn. split; [auto|discriminate].
Qed.

(** X15. When [Index] returns nil, the log holds, for every regular file whose
    conversion returned an error, the path of the file followed by that
    error: no failed conversion goes unreported. *)
Theorem Index_logs_failed_conversions (visits : list visit) (path : string)
    (info : FileInfo) (e : string) :
  fst (Index visits) = Ok tt ->
  In (Visit path info) visits -> IsDir info = false ->
  convert path info = Err e ->
  In (path ++ ": " ++ e) (logged (snd (Index visits))).
Proof.
  unfold Legacy.Index.
  destruct (walkIndex_log visits {| stdout := []; logged := [] |}) as [_ Hlog].
  destruct (walkIndex visits {| stdout := []; logged := [] |}) as [[[]|e1|p1] o1];
    cbn [fst snd] in *; try discriminate.
  intros _. apply Hlog. reflexivity.
Qed.

Lemma walkIndex_app (pre post : list visit) (o : IndexOutput) :
  walkIndex (pre ++ post) o =
    match walkIndex pre o with
    | (Ok _, o') => walkIndex post o'
    | stop => stop
    end.
Proof.
  revert o. induction pre as [|v pre IH]; intros o; [reflexivity|].
  destruct v as [path info|path err]; cbn [app Legacy.walkIndex]; [|reflexivity].
  destruct (IsDir info); [apply IH|].
  destruct (indexFile path (convert path info) (logLine path o)) as [[[]|e|p] o1];
    [apply IH|reflexivity..].
Qed.

(** X16. The walk ends at the first error the traversal hands in: what follows
    it has no effect, and when the visits before it went through, [Index]
    returns that error, wrapped, with the output written so far. *)
Theorem Index_stops_at_traversal_error (pre post : list visit) (p err : string) :
  Index (pre ++ VisitError p err :: post) = Index (pre ++ [VisitError p err])
  /\ (fst (Index pre) = Ok tt ->
      Index (pre ++ VisitError p err :: post) =
        (Err ("error while browsing directory: " ++ err), snd (Index pre))).
Proof.
  unfold Legacy.Index. rewrite !walkIndex_app.
  destruct (walkIndex pre {| stdout := []; logged := [] |}) as [[[]|e1|p1] o1];
    cbn [Legacy.walkIndex fst snd]; split; try reflexivity; discriminate.
Qed.

End IndexLog.

(** ** The sizes of the pool and of the queue *)

(** The number of converter goroutines and the size of the extraction
    queue are the configured values when these are at least one and the
    defaults 4 and 50 otherwise; both are at least one. *)
Theorem pool_sizes (idxer : Metadata.Indexer) :
  1 <= Metadata.extractionThreadCount idxer
  /\ 1 <= Metadata.toExtractChannelSize idxer
  /\ Metadata.extractionThreadCount idxer =
       (if 1 <=? Metadata.ExtractionThreadCount (Metadata.conf idxer)
        then Metadata.ExtractionThreadCount (Metadata.conf idxer) else 4)
  /\ Metadata.toExtractChannelSize idxer =
       (if 1 <=? Metadata.ToExtractChannelSize (Metadata.conf idxer)
        then Metadata.ToExtractChannelSize (Metadata.conf idxer) else 50).
Proof.
  unfold Metadata.extractionThreadCount, Metadata.toExtractChannelSize,
    Metadata.defaultExtrationThreadCount, Metadata.defaultToExtractChannelSize.
  destruct (Z.ltb_spec (Metadata.ExtractionThreadCount (Metadata.conf idxer)) 1);
    destruct (Z.ltb_spec (Metadata.ToExtractChannelSize (Metadata.conf idxer)) 1);
    destruct (Z.leb_spec 1 (Metadata.ExtractionThreadCount (Metadata.conf idxer)));
    destruct (Z.leb_spec 1 (Metadata.ToExtractChannelSize (Metadata.conf idxer)));
    repeat split; lia.
Qed.

(** ** Construction of the legacy indexer *)

Section ConstructFacts.
Variable Exiftool : Type.
Variable NewExiftool : Exiftool + string.
Import Construct.

Local Abbreviation Indexer := (Construct.Indexer Exiftool).
Local Abbreviation opt := (Construct.opt Exiftool).
Local Abbreviation applyOpts := (Construct.applyOpts Exiftool).
Local Abbreviation NewIndexer := (Construct.NewIndexer Exiftool NewExiftool).
Local Abbreviation Input := (Construct.Input Exiftool).

Lemma applyOpts_app (pre post : list opt) (idxer : Indexer) :
  applyOpts (pre ++ post) idxer =
    match applyOpts pre idxer with
    | inl idxer' => applyOpts post idxer'
    | inr err => inr err
    end.
Proof.
  revert idxer. induction pre as [|o pre IH]; intros idxer; [reflexivity|].
  cbn. destruct (o idxer) as [idxer' [err|]]; [reflexivity|apply IH].
Qed.

Lemma last_cons {A} (xs : list A) (x d : A) : List.last (x :: xs) d = List.last xs x.
Proof.
  revert x d. induction xs as [|y xs IH]; intros x d; [reflexivity|].
  change (List.last (x :: y :: xs) d) with (List.last (y :: xs) d).
  now rewrite !IH.
Qed.

Lemma applyOpts_inputs (xs : list string) (idxer : Indexer) :
  applyOpts (map Input xs) idxer =
    inl {| input := List.last xs (input idxer); exif := exif idxer |}.
Proof.
  revert idxer. induction xs as [|x xs IH]; intros idxer.
  - destruct idxer; reflexivity.
  - change (applyOpts (map Input (x :: xs)) idxer)
      with (applyOpts (map Input xs) {| input := x; exif := exif idxer |}).
    rewrite IH. cbn [input exif]. now rewrite last_cons.
Qed.

(** X17. An option that fails makes [NewIndexer] return the nil indexer with
    the initialization error, whatever options follow it; with only [Input]
    options the indexer reads from the last input given, and it owns the
    running exiftool when that one started. *)
Theorem NewIndexer_options (pre post : list opt) (o : opt) (xs : list string) :
  (forall idxer idxer' err,
      applyOpts pre {| input := EmptyString; exif := None |} = inl idxer ->
      o idxer = (idxer', Some err) ->
      NewIndexer (pre ++ o :: post) = (None, Some ("Initialization error: " ++ err)))
  /\ NewIndexer (map Input xs) =
       match NewExiftool with
       | inl et => (Some {| input := List.last xs EmptyString; exif := Some et |}, None)
       | inr err =>
           (Some {| input := List.last xs EmptyString; exif := None |},
            Some ("error while initializing metadata extractor: " ++ err))
       end.
Proof.
  split.
  - intros idxer idxer' err Hpre Ho. unfold Construct.NewIndexer.
    rewrite applyOpts_app, Hpre. cbn. now rewrite Ho.
  - unfold Construct.NewIndexer. rewrite applyOpts_inputs. cbn.
    destruct NewExiftool; reflexivity.
Qed.

End ConstructFacts.

(** ** The folder stored by the two converters *)

Section MetadataFolder.
Variables (meta context importID float64p int64p stringp stringsp datep gpsp : Type).
Variable ExtractMetadata : string -> list meta.
Variable noMeta : meta.
Variable GetImportID : context -> importID.
Variable getFloat64 : meta -> string -> float64p.
Variable getInt64 : meta -> string -> int64p.
Variable getString : meta -> string -> stringp.
Variable getStrings : meta -> string -> stringsp.
Variable getDate : meta -> string -> datep.
Variable getGPS : meta -> string -> gpsp.
Variable PathSeparator : ascii.

Lemma Metadata_convert_folder (ctx : context) (f : string) (fInfo : FileInfo)
    (pic : Metadata.Model importID float64p int64p stringp stringsp datep gpsp) :
  Metadata.convert meta context importID float64p int64p stringp stringsp datep gpsp
    ExtractMetadata noMeta GetImportID getFloat64 getInt64 getString getStrings
    getDate getGPS PathSeparator ctx f fInfo = Ok pic ->
  Metadata.Folder _ _ _ _ _ _ _ pic = Legacy.folderOf PathSeparator f
  /\ Metadata.FileName _ _ _ _ _ _ _ pic = Name fInfo
  /\ Metadata.FileSize _ _ _ _ _ _ _ pic = Size fInfo mod 2 ^ 64.
Proof.
  unfold Metadata.convert. destruct (negb _); [discriminate|].
  intros [= <-]. repeat split.
Qed.

End MetadataFolder.

(** X8. For a path that ends in [folder], a separator and [name], neither of
    which contains the separator, both converters return a record whose
    folder is [folder]: the name of the directory that holds the file. *)
Theorem converters_store_parent_folder (sep : ascii) (folder name f : string) :
  Go.count sep folder = 0%nat -> Go.count sep name = 0%nat ->
  f = folder ++ String sep name
  \/ (exists dir, f = dir ++ String sep (folder ++ String sep name)) ->
  (forall (FL : FloatLib) (TL : TimeLib) (metas : list (Legacy.FileMetadata float64))
          (fInfo : FileInfo) (pic : Legacy.Model float64),
      Legacy.convertMetas sep metas f fInfo = Ok pic -> Legacy.Folder pic = folder)
  /\ (forall (meta context importID float64p int64p stringp stringsp datep gpsp : Type)
             (ExtractMetadata : string -> list meta) (noMeta : meta)
             (GetImportID : context -> importID)
             (getFloat64 : meta -> string -> float64p)
             (getInt64 : meta -> string -> int64p)
             (getString : meta -> string -> stringp)
             (getStrings : meta -> string -> stringsp)
             (getDate : meta -> string -> datep)
             (getGPS : meta -> string -> gpsp)
             (ctx : context) (fInfo : FileInfo)
             (pic : Metadata.Model importID float64p int64p stringp stringsp datep gpsp),
        Metadata.convert meta context importID float64p int64p stringp stringsp datep
          gpsp ExtractMetadata noMeta GetImportID getFloat64 getInt64 getString
          getStrings getDate getGPS sep ctx f fInfo = Ok pic ->
        Metadata.Folder _ _ _ _ _ _ _ pic = folder).
Proof.
  intros Hf Hn Hshape.
  assert (Hfolder : Legacy.folderOf sep f = folder).
  { destruct (folderOf_parent sep folder name Hf Hn) as (H1 & H2 & _).
    destruct Hshape as [->|[dir ->]]; [exact H1|apply H2]. }
  split.
  - intros FL TL metas fInfo pic H.
    destruct (convertMetas_folder sep metas f fInfo pic H) as [-> _]. exact Hfolder.
  - intros meta context importID float64p int64p stringp stringsp datep gpsp
      ExtractMetadata noMeta GetImportID getFloat64 getInt64 getString getStrings
      getDate getGPS ctx fInfo pic H.
    apply Metadata_convert_folder in H. destruct H as [-> _]. exact Hfolder.
Qed.

(** ** The properties on the sample data *)


(** The sample converter and the sample header function never panic, so
    the run that abandons the walk has sent on no closed channel. *)
Lemma Dump_never_sends_on_closed_channel_sample :
  exists s,
    Scenario.run Scenario.abandonedWalk (Scenario.start Scenario.brokenFirst) = Some s
    /\ Pipeline.crashed s = None.
Proof.
  eexists. split; [vm_compute; reflexivity|].
  apply (Dump_never_sends_on_closed_channel string string Scenario.convert
           Scenario.getBulkEntryHeader Scenario.encodeHeader Scenario.encodePic
           Scenario.idxer Scenario.brokenFirst Scenario.abandonedWalk).
  - intros f fInfo. unfold Scenario.convert. destruct (String.eqb _ _); reflexivity.
  - intros f m. unfold Scenario.getBulkEntryHeader.
    destruct (String.eqb _ _); reflexivity.
  - vm_compute. reflexivity.
Defined.


(** The run in which no header can be built ends with the context
    cancelled. *)
Lemma Dump_failure_cancels_sample :
  exists s,
    Scenario.run Scenario.failingHeader (Scenario.start Scenario.oneWithoutHeader)
      = Some s
    /\ Pipeline.cancelled s = true.
Proof.
  eexists. split; [vm_compute; reflexivity|].
  apply (Dump_failure_cancels string string Scenario.convert
           Scenario.getBulkEntryHeader Scenario.encodeHeader Scenario.encodePic
           Scenario.idxer Scenario.oneWithoutHeader Scenario.failingHeader _ None).
  - vm_compute. reflexivity.
  - reflexivity.
  - right. vm_compute. discriminate.
Defined.

(** The output of the run without failure is a sequence of pairs. *)
Lemma Dump_output_framed_sample :
  exists s ts tail,
    Scenario.run Scenario.cleanRun (Scenario.start Scenario.onePicture) = Some s
    /\ Pipeline.written s = (flat_map (Census.linePair string string Scenario.encodeHeader
                                     Scenario.encodePic) ts ++ tail)%list.
Proof.
  eexists.
  destruct (Dump_output_framed string string Scenario.convert
              Scenario.getBulkEntryHeader Scenario.encodeHeader Scenario.encodePic
              Scenario.idxer Scenario.onePicture Scenario.cleanRun _
              ltac:(vm_compute; reflexivity)) as (ts & tail & H & _).
  exists ts, tail. split; [vm_compute; reflexivity|exact H].
Defined.

(** The run without failure writes the two lines of its only file. *)
Lemma Dump_writes_every_file_sample :
  exists s,
    Scenario.run Scenario.cleanRun (Scenario.start Scenario.onePicture) = Some s
    /\ length (Pipeline.written s) = 2%nat.
Proof.
  eexists. split; [vm_compute; reflexivity|].
  apply (Dump_writes_every_file string string Scenario.convert
           Scenario.getBulkEntryHeader Scenario.encodeHeader Scenario.encodePic
           Scenario.idxer Scenario.onePicture Scenario.cleanRun);
    vm_compute; reflexivity.
Defined.

(** While the walk goes on in the sample run, some goroutine can move. *)
Lemma Dump_progress_sample :
  exists s a s',
    Scenario.run Fixture.walking (Scenario.start Scenario.onePicture) = Some s
    /\ a <> Pipeline.AParent
    /\ Pipeline.step string string Scenario.convert Scenario.getBulkEntryHeader
         Scenario.encodeHeader Scenario.encodePic s a = Some s'.
Proof.
  eexists.
  destruct (Dump_progress string string Scenario.convert
              Scenario.getBulkEntryHeader Scenario.encodeHeader Scenario.encodePic
              Scenario.idxer Scenario.onePicture Fixture.walking _
              ltac:(vm_compute; reflexivity) ltac:(reflexivity) ltac:(reflexivity)
              ltac:(reflexivity) ltac:(intros r; vm_compute; discriminate))
    as (a & s' & Ha & Hs).
  exists a, s'. split; [vm_compute; reflexivity|]. split; assumption.
Defined.

(** The sample picture of the album is stored with the folder [album]. *)
Lemma converters_store_parent_folder_sample :
  exists pic,
    Legacy.convertMetas (FL := Reference.floats) (TL := Reference.times)
      "/" [Sample.jpeg] "album/sea.jpg" (Sample.aFile "sea.jpg") = Ok pic
    /\ Legacy.Folder pic = "album".
Proof.
  destruct (Legacy.convertMetas (FL := Reference.floats) (TL := Reference.times)
              "/" [Sample.jpeg] "album/sea.jpg" (Sample.aFile "sea.jpg"))
    as [pic|e|p] eqn:H; [|vm_compute in H; discriminate..].
  exists pic. split; [reflexivity|].
  exact (proj1 (converters_store_parent_folder "/" "album" "sea.jpg" "album/sea.jpg"
                  ltac:(reflexivity) ltac:(reflexivity) ltac:(left; reflexivity))
               Reference.floats Reference.times [Sample.jpeg]
               (Sample.aFile "sea.jpg") pic H).
Defined.

(** The sample position has ten tokens, since it converts. *)
Lemma convertGPSCoordinates_Ok_inv_paris :
  exists lat long,
    Legacy.convertGPSCoordinates (FL := Reference.floats) Sample.paris = Ok (lat, long)
    /\ length (Go.Split Sample.paris " "%char) = 10%nat.
Proof.
  destruct (Legacy.convertGPSCoordinates (FL := Reference.floats) Sample.paris)
    as [[lat long]|e|p] eqn:H; [|vm_compute in H; discriminate..].
  exists lat, long. split; [reflexivity|].
  destruct (convertGPSCoordinates_Ok_inv (FL := Reference.floats) Sample.paris lat long H)
    as (d1 & x1 & m1 & s1 & l1 & d2 & x2 & m2 & s2 & l2 & c1 & c2 & c3 & c4 & c5
        & fd1 & fm1 & fs1 & sg1 & fd2 & fm2 & fs2 & sg2 & Hsplit & _).
  rewrite Hsplit. reflexivity.
Defined.

(** The keywords of the tagged sample decode to its two strings. *)
Lemma decodeKeywords_slice_sample :
  Legacy.decodeKeywords (FL := Reference.floats) Fixture.tagged
    = Ok (Some ["sea"; "sun"]).
Proof.
  apply (proj1 (decodeKeywords_slice (FL := Reference.floats) Fixture.tagged
                  [Legacy.VString "sea"; Legacy.VString "sun"]
                  ltac:(vm_compute; reflexivity))
               ["sea"; "sun"]).
  reflexivity.
Defined.

(** The tagged sample, which has neither date nor position, converts. *)
Lemma convertMetas_well_typed_sample :
  is_Ok (Legacy.convertMetas (FL := Reference.floats) (TL := Reference.times)
           "/" [Fixture.tagged] "album/sea.jpg" (Sample.aFile "sea.jpg")) = true.
Proof.
  apply (convertMetas_well_typed (FL := Reference.floats) (TL := Reference.times)
           "/" Fixture.tagged "album/sea.jpg" (Sample.aFile "sea.jpg"));
    first [ vm_compute; exact I
          | vm_compute; repeat constructor
          | vm_compute; reflexivity ].
Defined.

(** The file of the sample album that has no record is reported in the
    log. *)
Lemma Index_logs_failed_conversions_sample :
  In "album/broken.bin: wrong metadata count (0)"
     (Legacy.logged
        (snd (Legacy.Index (FL := Reference.floats) (TL := Reference.times)
                Sample.extract "/" Sample.encode Sample.album))).
Proof.
  apply (Index_logs_failed_conversions (FL := Reference.floats) (TL := Reference.times)
           Sample.extract "/" Sample.encode Sample.album
           "album/broken.bin" (Sample.aFile "broken.bin") "wrong metadata count (0)").
  - vm_compute. reflexivity.
  - right. left. reflexivity.
  - reflexivity.
  - vm_compute. reflexivity.
Defined.

(** The walk of the sample tree with a directory that cannot be opened
    returns the wrapped error and the output of the visits before it. *)
Lemma Index_stops_at_traversal_error_sample :
  Legacy.Index (FL := Reference.floats) (TL := Reference.times)
    Sample.extract "/" Sample.encode Sample.unreadable
  = (Err "error while browsing directory: open album/private: permission denied",
     snd (Legacy.Index (FL := Reference.floats) (TL := Reference.times)
            Sample.extract "/" Sample.encode Fixture.reached)).
Proof.
  apply (proj2 (Index_stops_at_traversal_error (FL := Reference.floats)
                  (TL := Reference.times) Sample.extract "/" Sample.encode
                  Fixture.reached Fixture.skipped "album/private"
                  "open album/private: permission denied")).
  vm_compute. reflexivity.
Defined.

(** An option that refuses the indexer stops the construction, whatever
    comes after it. *)
Lemma NewIndexer_options_sample :
  Construct.NewIndexer unit (inl tt)
    [Construct.Input unit "album"; Fixture.refuse; Construct.Input unit "other"]
  = (None, Some "Initialization error: unsupported option").
Proof.
  apply (proj1 (NewIndexer_options unit (inl tt) [Construct.Input unit "album"]
                  [Construct.Input unit "other"] Fixture.refuse [])
               {| Construct.input := "album"; Construct.exif := None |}
               {| Construct.input := "album"; Construct.exif := None |}
               "unsupported option"); reflexivity.
Defined.
